(** * Selection resolution and catalog metadata of [singer_sdk.helpers._singer]

    A shallow embedding of [src/singer_sdk/helpers/_singer.py]: the
    [SelectionMask], [Metadata] / [StreamMetadata], [MetadataMapping] and
    [CatalogEntry] classes, followed by the properties of the specification
    that concern them.

    Python dictionaries are finite maps ([gmap]); dynamically typed values
    ([Any]) are the inductive type [Value]; a raised exception is the [Raise]
    case of [Result]; a method that may touch its receiver or the module
    logger is a function in the state monad [St].

    A [gmap] enumerates its keys in an order of its own, not in the order of
    insertion of a Python dict.  Where the source iterates over a dict
    ([to_list], [resolve_selection], the properties of a schema) the embedding
    iterates in that order; nothing proved below depends on it. *)

From Stdlib Require Import Ascii.
From stdpp Require Import gmap strings list fin_maps.
From Equations Require Import Equations.

#[local] Set Warnings "-register-all,-clear-no-such-hyp".

(** ** Python values *)

(** [Metadata.InclusionType], a [str]-valued enumeration. *)
Inductive InclusionType := AVAILABLE | AUTOMATIC | UNSUPPORTED.

Definition InclusionType_value (i : InclusionType) : string :=
  match i with
  | AVAILABLE => "available"
  | AUTOMATIC => "automatic"
  | UNSUPPORTED => "unsupported"
  end.

(** The values a field annotated [Any] can hold: what a JSON document gives,
    plus members of [InclusionType]. *)
Inductive Value :=
| VNone
| VBool (b : bool)
| VInt (n : Z)
| VStr (s : string)
| VInclusion (i : InclusionType)
| VList (l : list Value)
| VDict (d : gmap string Value).

(** Exceptions the embedded code can raise.  [Unrepresentable] is not a Python
    exception: it marks an input that the source accepts but that leaves the
    declared types of this module (a breadcrumb with a segment that is not a
    string), which the embedding does not represent. *)
Inductive PyExn :=
| KeyError (key : string)
| TypeError
| AttributeError
| Unrepresentable.

Inductive Result (A : Type) :=
| Ok (a : A)
| Raise (e : PyExn).
Arguments Ok {A} a.
Arguments Raise {A} e.

#[global] Instance Result_ret : MRet Result := λ A a, Ok a.
#[global] Instance Result_bind : MBind Result := λ A B f r,
  match r with
  | Ok a => f a
  | Raise e => Raise e
  end.

Module Py.

(** [bool(v)]: Python truthiness. *)
Definition truthy (v : Value) : bool :=
  match v with
  | VNone => false
  | VBool b => b
  | VInt n => bool_decide (n ≠ 0%Z)
  | VStr s => bool_decide (s ≠ "")
  | VInclusion _ => true
  | VList l => bool_decide (l ≠ [])
  | VDict d => bool_decide (d ≠ ∅)
  end.

(** [v is None] *)
Definition is_None (v : Value) : bool :=
  match v with VNone => true | _ => false end.

(** [v is True] and [v is False]: identity with the two [bool] singletons. *)
Definition is_True (v : Value) : bool :=
  match v with VBool true => true | _ => false end.

Definition is_False (v : Value) : bool :=
  match v with VBool false => true | _ => false end.

(** [v == Metadata.InclusionType.X].  The enumeration derives from [str], so
    a member compares equal to the plain string that is its value, and to
    nothing that is not a string. *)
Definition eq_inclusion (v : Value) (i : InclusionType) : bool :=
  match v with
  | VStr s => bool_decide (s = InclusionType_value i)
  | VInclusion j => bool_decide (InclusionType_value j = InclusionType_value i)
  | _ => false
  end.

(** [bool(d)] for a dict of any key and value type. *)
Definition truthy_dict `{Countable K} {V : Type} (d : gmap K V) : bool :=
  bool_decide (d ≠ ∅).

(** [a or b] *)
Definition or (a b : Value) : Value := if truthy a then a else b.

(** [d.get(key)] and [d.get(key, dflt)] on a [dict]. *)
Definition get (d : gmap string Value) (key : string) : Value :=
  default VNone (d !! key).

Definition get_default (d : gmap string Value) (key : string) (dflt : Value)
  : Value :=
  default dflt (d !! key).

(** [s.replace(old, new)] for one-character [old] and [new]. *)
Fixpoint replace (old new : Ascii.ascii) (s : string) : string :=
  match s with
  | EmptyString => EmptyString
  | String c rest =>
      String (if bool_decide (c = old) then new else c) (replace old new rest)
  end.

(** [sep.join(parts)] *)
Fixpoint join (sep : string) (parts : list string) : string :=
  match parts with
  | [] => ""
  | [p] => p
  | p :: rest => p +:+ sep +:+ join sep rest
  end.

(** The elements a [for] loop (or [tuple(...)]) draws from a value: the
    items of a list, the keys of a dict, the characters of a string; other
    values are not iterable. *)
Definition string_chars (s : string) : list Value :=
  (λ c, VStr (String c EmptyString)) <$> String.list_ascii_of_string s.

Definition iter (v : Value) : Result (list Value) :=
  match v with
  | VList l => Ok l
  | VDict d => Ok (VStr <$> (map_to_list d).*1)
  | VStr s => Ok (string_chars s)
  | VInclusion i => Ok (string_chars (InclusionType_value i))
  | VNone | VBool _ | VInt _ => Raise TypeError
  end.

(** [v[key]] for a string [key]: only a dict can be subscripted by one. *)
Definition getitem (v : Value) (key : string) : Result Value :=
  match v with
  | VDict d =>
      match d !! key with
      | Some x => Ok x
      | None => Raise (KeyError key)
      end
  | _ => Raise TypeError
  end.

(** [v.get(key)] as a method call: only a dict has the method. *)
Definition get_method (v : Value) : Result (gmap string Value) :=
  match v with
  | VDict d => Ok d
  | _ => Raise AttributeError
  end.

(** [dict(pairs)], also a dict comprehension: entries are stored in order, a
    later one replacing an earlier one with the same key. *)
Definition dict_of_pairs `{Countable K} {V : Type} (pairs : list (K * V))
  : gmap K V :=
  foldl (λ acc kv, <[kv.1 := kv.2]> acc) ∅ pairs.

(** [seq[:-2]]: all but the last two items, nothing when there are fewer. *)
Definition drop_last_two {A : Type} (seq : list A) : list A :=
  take (length seq - 2) seq.

End Py.

(** ** Breadcrumbs *)

(** [Breadcrumb = Tuple[str, ...]] *)
Abbreviation Breadcrumb := (list string) (only parsing).

(** ** [SelectionMask] *)

Module SelectionMask.

(** [class SelectionMask(Dict[Breadcrumb, bool])].  The values are whatever
    [_breadcrumb_is_selected] returned. *)
Definition t : Type := gmap Breadcrumb Value.

(** [__missing__]: a missing breadcrumb of two or more segments defers to
    [self[breadcrumb[:-2]]], which is the stored value when there is one and
    [__missing__] again otherwise; a shorter one is [True]. *)
Equations? __missing__ (self : gmap Breadcrumb Value) (breadcrumb : Breadcrumb)
  : Value by wf (length breadcrumb) lt :=
  __missing__ self breadcrumb with decide (2 ≤ length breadcrumb) := {
    | left _ =>
        let parent := Py.drop_last_two breadcrumb in
        match self !! parent with
        | Some v => v
        | None => __missing__ self parent
        end
    | right _ => VBool true }.
Proof. subst parent. unfold Py.drop_last_two. rewrite length_take. lia. Qed.

(** [self[breadcrumb]] *)
Definition __getitem__ (self : gmap Breadcrumb Value) (breadcrumb : Breadcrumb)
  : Value :=
  match self !! breadcrumb with
  | Some v => v
  | None => __missing__ self breadcrumb
  end.

End SelectionMask.

(** ** [Metadata] and [StreamMetadata] *)

Inductive MetadataClass := MetadataCls | StreamMetadataCls.

(** An instance of one of the two dataclasses; every field defaults to
    [None]. *)
Inductive AnyMetadata :=
| Metadata (inclusion selected selected_by_default : Value)
| StreamMetadata (inclusion selected selected_by_default
                  table_key_properties forced_replication_method
                  valid_replication_keys schema_name : Value).

Module Metadata.

Definition class_of (self : AnyMetadata) : MetadataClass :=
  match self with
  | Metadata _ _ _ => MetadataCls
  | StreamMetadata _ _ _ _ _ _ _ => StreamMetadataCls
  end.

(** The names of [dataclasses.fields(cls)], inherited fields first. *)
Definition fields (cls : MetadataClass) : list string :=
  match cls with
  | MetadataCls => ["inclusion"; "selected"; "selected_by_default"]
  | StreamMetadataCls =>
      ["inclusion"; "selected"; "selected_by_default";
       "table_key_properties"; "forced_replication_method";
       "valid_replication_keys"; "schema_name"]
  end.

(** [[(f.name, getattr(self, f.name)) for f in fields(self)]] *)
Definition field_values (self : AnyMetadata) : list (string * Value) :=
  match self with
  | Metadata i s d =>
      [("inclusion", i); ("selected", s); ("selected_by_default", d)]
  | StreamMetadata i s d tkp frm vrk sn =>
      [("inclusion", i); ("selected", s); ("selected_by_default", d);
       ("table_key_properties", tkp); ("forced_replication_method", frm);
       ("valid_replication_keys", vrk); ("schema_name", sn)]
  end.

(** [getattr(self, name)]; [None] stands for [AttributeError]. *)
Definition getattr (self : AnyMetadata) (name : string) : option Value :=
  (list_to_map (field_values self) : gmap string Value) !! name.

(** The dataclass constructor called with keyword arguments: a field without
    one takes its default, [None]. *)
Definition new (cls : MetadataClass) (kwargs : gmap string Value)
  : AnyMetadata :=
  let kw name := default VNone (kwargs !! name) in
  match cls with
  | MetadataCls =>
      Metadata (kw "inclusion") (kw "selected") (kw "selected_by_default")
  | StreamMetadataCls =>
      StreamMetadata (kw "inclusion") (kw "selected")
        (kw "selected_by_default") (kw "table_key_properties")
        (kw "forced_replication_method") (kw "valid_replication_keys")
        (kw "schema_name")
  end.

(** The three attributes every record has. *)
Definition inclusion (self : AnyMetadata) : Value :=
  match self with
  | Metadata i _ _ | StreamMetadata i _ _ _ _ _ _ => i
  end.

Definition selected (self : AnyMetadata) : Value :=
  match self with
  | Metadata _ s _ | StreamMetadata _ s _ _ _ _ _ => s
  end.

Definition selected_by_default (self : AnyMetadata) : Value :=
  match self with
  | Metadata _ _ d | StreamMetadata _ _ d _ _ _ _ => d
  end.

(** The wire name of a field: [name.replace("_", "-")]. *)
Definition wire_name (name : string) : string := Py.replace "_"%char "-"%char name.

(** [from_dict(cls, value)] *)
Definition from_dict (cls : MetadataClass) (value : gmap string Value)
  : AnyMetadata :=
  new cls
    (Py.dict_of_pairs
       ((λ name, (name, Py.get value (wire_name name))) <$> fields cls)).

(** The body of the loop of [to_dict], for one field and its value. *)
Definition to_dict_step (result : gmap string Value)
  (object_field : string * Value) : gmap string Value :=
  let '(name, value) := object_field in
  if Py.is_None value then result
  else <[wire_name name := value]> result.

(** [to_dict(self)] *)
Definition to_dict (self : AnyMetadata) : gmap string Value :=
  foldl to_dict_step ∅ (field_values self).

End Metadata.

(** ** [MetadataMapping] *)

(** One call of [logger.debug]: the format string and its arguments. *)
Inductive LogArg :=
| LStr (s : string)
| LBreadcrumb (b : Breadcrumb)
| LValue (v : Value).

Record LogRecord := mkLog { log_msg : string; log_args : list LogArg }.

Module MetadataMapping.

(** [class MetadataMapping(Dict[Breadcrumb, AnyMetadata])].  A method runs
    on the receiver [self] and the module-level [logger]; both are threaded
    through the state monad [St]. *)
Record State := mkState {
  self : gmap Breadcrumb AnyMetadata;
  logged : list LogRecord }.

Definition St (A : Type) : Type := State → A * State.

#[global] Instance St_ret : MRet St := λ A a σ, (a, σ).
#[global] Instance St_bind : MBind St := λ A B f m σ,
  let '(a, σ') := m σ in f a σ'.

Definition get_self : St (gmap Breadcrumb AnyMetadata) := λ σ, (self σ, σ).

(** [self[breadcrumb] = value] *)
Definition __setitem__ (breadcrumb : Breadcrumb) (value : AnyMetadata)
  : St unit :=
  λ σ, (tt, mkState (<[breadcrumb := value]> (self σ)) (logged σ)).

(** [logger.debug(msg, *args)] *)
Definition logger_debug (msg : string) (args : list LogArg) : St unit :=
  λ σ, (tt, mkState (self σ) (logged σ ++ [mkLog msg args])).

(** A [for] loop whose body may raise. *)
Fixpoint for_each {A S : Type} (body : S → A → Result S) (items : list A)
  (s : S) : Result S :=
  match items with
  | [] => Ok s
  | x :: rest => s' ← body s x; for_each body rest s'
  end.

(** Hashing a tuple when it is used as a key: a list or dict inside it is
    unhashable; a string is a breadcrumb segment; any other hashable item
    gives a key that is no [Breadcrumb]. *)
Definition segment (v : Value) : Result string :=
  match v with
  | VStr s => Ok s
  | VInclusion i => Ok (InclusionType_value i)
  | VList _ | VDict _ => Raise TypeError
  | VNone | VBool _ | VInt _ => Raise Unrepresentable
  end.

Fixpoint as_key (items : list Value) : Result Breadcrumb :=
  match items with
  | [] => Ok []
  | x :: rest => s ← segment x; b ← as_key rest; Ok (s :: b)
  end.

(** The body of the loop of [from_iterable]. *)
Definition from_iterable_body (mapping : gmap Breadcrumb AnyMetadata)
  (d : Value) : Result (gmap Breadcrumb AnyMetadata) :=
  raw ← Py.getitem d "breadcrumb";
  breadcrumb ← Py.iter raw;
  metadata ← Py.getitem d "metadata";
  value ← Py.get_method metadata;
  let entry :=
    if bool_decide (breadcrumb ≠ [])
    then Metadata.from_dict MetadataCls value
    else Metadata.from_dict StreamMetadataCls value in
  key ← as_key breadcrumb;
  Ok (<[key := entry]> mapping).

(** [from_iterable(cls, iterable)] *)
Definition from_iterable (iterable : Value)
  : Result (gmap Breadcrumb AnyMetadata) :=
  items ← Py.iter iterable;
  for_each from_iterable_body items ∅.

(** The dict [to_list] builds for one item [(k, v)] of the mapping. *)
Definition to_list_item (item : Breadcrumb * AnyMetadata) : Value :=
  let '(k, v) := item in
  VDict (Py.dict_of_pairs
           [("breadcrumb", VList (VStr <$> k));
            ("metadata", VDict (Metadata.to_dict v))]).

(** [to_list(self)] *)
Definition to_list (self : gmap Breadcrumb AnyMetadata) : list Value :=
  to_list_item <$> map_to_list self.

(** [__missing__(self, breadcrumb)]: stores a default record and returns
    [self[breadcrumb]], which is then the record just stored. *)
Definition __missing__ (breadcrumb : Breadcrumb) : St AnyMetadata :=
  let fresh :=
    if bool_decide (breadcrumb ≠ [])
    then Metadata VNone VNone VNone
    else StreamMetadata VNone VNone VNone VNone VNone VNone VNone in
  __setitem__ breadcrumb fresh;;
  this ← get_self;
  mret (default fresh (this !! breadcrumb)).

(** [self[breadcrumb]] *)
Definition __getitem__ (breadcrumb : Breadcrumb) : St AnyMetadata :=
  this ← get_self;
  match this !! breadcrumb with
  | Some v => mret v
  | None => __missing__ breadcrumb
  end.

(** The [root] property. *)
Definition root : St AnyMetadata := __getitem__ [].

(** Arguments annotated [list[str] | None] and [str | None], as values. *)
Definition opt_strs (o : option (list string)) : Value :=
  match o with
  | Some l => VList (VStr <$> l)
  | None => VNone
  end.

Definition opt_str (o : option string) : Value :=
  match o with
  | Some s => VStr s
  | None => VNone
  end.

(** [root.inclusion = value] and [root.schema_name = value] *)
Definition set_inclusion (value : Value) (md : AnyMetadata) : AnyMetadata :=
  match md with
  | Metadata _ s d => Metadata value s d
  | StreamMetadata _ s d tkp frm vrk sn =>
      StreamMetadata value s d tkp frm vrk sn
  end.

Definition set_schema_name (value : Value) (md : AnyMetadata) : AnyMetadata :=
  match md with
  | Metadata i s d => Metadata i s d
  | StreamMetadata i s d tkp frm vrk _ =>
      StreamMetadata i s d tkp frm vrk value
  end.

(** [v.keys()]: only a dict has the method. *)
Definition keys (v : Value) : Result (list string) :=
  match v with
  | VDict d => Ok (map_to_list d).*1
  | _ => Raise AttributeError
  end.

(** [key_properties and field_name in key_properties] *)
Definition is_key_property (key_properties : option (list string))
  (field_name : string) : bool :=
  match key_properties with
  | Some kp => bool_decide (kp ≠ []) && bool_decide (field_name ∈ kp)
  | None => false
  end.

(** The body of the loop over the field names of the schema. *)
Definition seed_field (key_properties : option (list string))
  (mapping : gmap Breadcrumb AnyMetadata) (field_name : string)
  : gmap Breadcrumb AnyMetadata :=
  let entry :=
    if is_key_property key_properties field_name
    then Metadata (VInclusion AUTOMATIC) VNone VNone
    else Metadata (VInclusion AVAILABLE) VNone VNone in
  <[["properties"; field_name] := entry]> mapping.

(** [get_standard_metadata(cls, schema, schema_name, key_properties,
    valid_replication_keys, replication_method)] *)
Definition get_standard_metadata
  (schema : option (gmap string Value)) (schema_name : option string)
  (key_properties valid_replication_keys : option (list string))
  (replication_method : option string)
  : Result (gmap Breadcrumb AnyMetadata) :=
  let mapping : gmap Breadcrumb AnyMetadata := ∅ in
  let root :=
    StreamMetadata VNone VNone VNone (opt_strs key_properties)
      (opt_str replication_method) (opt_strs valid_replication_keys) VNone in
  '(root, mapping) ←
    match schema with
    | Some schema' =>
        if Py.truthy (VDict schema') then
          let root := set_inclusion (VInclusion AVAILABLE) root in
          let root :=
            if Py.truthy (opt_str schema_name)
            then set_schema_name (opt_str schema_name) root
            else root in
          field_names ← keys (Py.get_default schema' "properties" (VDict ∅));
          Ok (root, foldl (seed_field key_properties) mapping field_names)
        else Ok (root, mapping)
    | None => Ok (root, mapping)
    end;
  Ok (<[[] := root]> mapping).

(** Lines 191-224 of [_breadcrumb_is_selected]: the decision once the entry
    and the parent's value are at hand. *)
Definition select_entry (breadcrumb : Breadcrumb) (md_entry : AnyMetadata)
  (parent_value : Value) : St Value :=
  if Py.is_False parent_value then mret parent_value
  else if Py.eq_inclusion (Metadata.inclusion md_entry) UNSUPPORTED then
    (if Py.is_True (Metadata.selected md_entry)
     then logger_debug
            ("Property '%s' was selected but is not supported. "
             +:+ "Ignoring selected==True input.")
            [LStr (Py.join ":" breadcrumb)]
     else mret tt);;
    mret (VBool false)
  else if Py.eq_inclusion (Metadata.inclusion md_entry) AUTOMATIC then
    (if Py.is_False (Metadata.selected md_entry)
     then logger_debug
            ("Property '%s' was deselected while also set "
             +:+ "for automatic inclusion. Ignoring selected==False input.")
            [LStr (Py.join ":" breadcrumb)]
     else mret tt);;
    mret (VBool true)
  else if negb (Py.is_None (Metadata.selected md_entry)) then
    mret (Metadata.selected md_entry)
  else if negb (Py.is_None (Metadata.selected_by_default md_entry)) then
    mret (Metadata.selected_by_default md_entry)
  else
    logger_debug
      ("Selection metadata omitted for '%s'. "
       +:+ "Using parent value of selected=%s.")
      [LBreadcrumb breadcrumb; LValue parent_value];;
    mret (Py.or parent_value (VBool false)).

(** [_breadcrumb_is_selected(self, breadcrumb)].  The two clauses are the
    two outcomes of [len(breadcrumb) > 0]; [parent_value] stays [None] in
    the second. *)
Equations? _breadcrumb_is_selected (breadcrumb : Breadcrumb) : St Value
  by wf (length breadcrumb) lt :=
  _breadcrumb_is_selected breadcrumb with decide (0 < length breadcrumb) := {
    | left _ =>
        this ← get_self;
        if negb (Py.truthy_dict this) then mret (VBool true) else
        let md_entry :=
          default (Metadata VNone VNone VNone) (this !! breadcrumb) in
        let parent_breadcrumb := Py.drop_last_two breadcrumb in
        parent_value ← _breadcrumb_is_selected parent_breadcrumb;
        select_entry breadcrumb md_entry parent_value
    | right _ =>
        this ← get_self;
        if negb (Py.truthy_dict this) then mret (VBool true) else
        let md_entry :=
          default (Metadata VNone VNone VNone) (this !! breadcrumb) in
        select_entry breadcrumb md_entry VNone }.
Proof.
  subst parent_breadcrumb. unfold Py.drop_last_two.
  rewrite length_take. lia.
Qed.

(** The generator expression of [resolve_selection], run to its end over the
    keys the mapping has when the loop starts.  (Python raises [RuntimeError]
    when a dict changes size while it is iterated; by
    [breadcrumb_is_selected_self] below the loop body never writes to it.) *)
Fixpoint selected_pairs (breadcrumbs : list Breadcrumb)
  : St (list (Breadcrumb * Value)) :=
  match breadcrumbs with
  | [] => mret []
  | breadcrumb :: rest =>
      v ← _breadcrumb_is_selected breadcrumb;
      pairs ← selected_pairs rest;
      mret ((breadcrumb, v) :: pairs)
  end.

(** [resolve_selection(self)] *)
Definition resolve_selection : St (gmap Breadcrumb Value) :=
  this ← get_self;
  pairs ← selected_pairs (map_to_list this).*1;
  mret (Py.dict_of_pairs pairs).

End MetadataMapping.

(** ** [CatalogEntry] *)

Module CatalogEntry.

(** The fields of the dataclass [CatalogEntry], in declaration order. *)
Record t (SchemaPlus : Type) := mk {
  tap_stream_id : Value;
  metadata : gmap Breadcrumb AnyMetadata;
  schema : SchemaPlus;
  stream : Value;
  key_properties : Value;
  replication_key : Value;
  is_view : Value;
  database : Value;
  table : Value;
  row_count : Value;
  stream_alias : Value;
  replication_method : Value }.
Arguments mk {SchemaPlus}.
Arguments tap_stream_id {SchemaPlus}.
Arguments metadata {SchemaPlus}.
Arguments schema {SchemaPlus}.
Arguments stream {SchemaPlus}.
Arguments key_properties {SchemaPlus}.
Arguments replication_key {SchemaPlus}.
Arguments is_view {SchemaPlus}.
Arguments database {SchemaPlus}.
Arguments table {SchemaPlus}.
Arguments row_count {SchemaPlus}.
Arguments stream_alias {SchemaPlus}.
Arguments replication_method {SchemaPlus}.

Section from_dict.

(** [SchemaPlus] and [SchemaPlus.from_dict] come from
    [singer_sdk.helpers._schema]; they are parameters here. *)
Context {SchemaPlus : Type}.
Variable SchemaPlus_from_dict : Value → Result SchemaPlus.

(** [from_dict(cls, stream)]: the keyword arguments of [cls(...)] are
    evaluated in the order they are written. *)
Definition from_dict (stream : gmap string Value) : Result (t SchemaPlus) :=
  tap_stream_id ← Py.getitem (VDict stream) "tap_stream_id";
  let stream_ := Py.get stream "stream" in
  let replication_key := Py.get stream "replication_key" in
  let key_properties := Py.get stream "key_properties" in
  let database := Py.get stream "database_name" in
  let table := Py.get stream "table_name" in
  schema ← SchemaPlus_from_dict (Py.get_default stream "schema" (VDict ∅));
  let is_view := Py.get stream "is_view" in
  let stream_alias := Py.get stream "stream_alias" in
  metadata ←
    MetadataMapping.from_iterable
      (Py.get_default stream "metadata" (VList []));
  let replication_method := Py.get stream "replication_method" in
  Ok (mk tap_stream_id metadata schema stream_ key_properties
        replication_key is_view database table VNone stream_alias
        replication_method).

End from_dict.

End CatalogEntry.

(** ** [Catalog] *)

Module Catalog.

(** What a value of this embedding is as a dict key.  Python looks a key up
    by hash and [==]: [True] and [1] are one key, as are [False] and [0]; a
    member of [InclusionType] is the string that is its value; a list or a
    dict cannot be hashed. *)
Inductive Key :=
| KNone
| KInt (n : Z)
| KStr (s : string).

#[global] Instance Key_eq_dec : EqDecision Key.
Proof. solve_decision. Defined.

#[global] Instance Key_countable : Countable Key.
Proof.
  refine (inj_countable'
            (λ k, match k with
                  | KNone => inl ()
                  | KInt n => inr (inl n)
                  | KStr s => inr (inr s)
                  end)
            (λ x, match x with
                  | inl _ => KNone
                  | inr (inl n) => KInt n
                  | inr (inr s) => KStr s
                  end) _).
  by intros [].
Defined.

Definition hash (v : Value) : Result Key :=
  match v with
  | VNone => Ok KNone
  | VBool b => Ok (KInt (if b then 1 else 0))
  | VInt n => Ok (KInt n)
  | VStr s => Ok (KStr s)
  | VInclusion i => Ok (KStr (InclusionType_value i))
  | VList _ | VDict _ => Raise TypeError
  end.

Section catalog.

(** As for [CatalogEntry.from_dict], the schema parser is a parameter. *)
Context {SchemaPlus : Type}.
Variable SchemaPlus_from_dict : Value → Result SchemaPlus.

(** The body of the loop of [from_dict]: [stream["tap_stream_id"]] is the
    first thing [CatalogEntry.from_dict] evaluates, and only a dict can be
    subscripted by a string. *)
Definition from_dict_body
  (instance : gmap Key (CatalogEntry.t SchemaPlus)) (stream : Value)
  : Result (gmap Key (CatalogEntry.t SchemaPlus)) :=
  entry ←
    match stream with
    | VDict d => CatalogEntry.from_dict SchemaPlus_from_dict d
    | _ => Raise TypeError
    end;
  key ← hash (CatalogEntry.tap_stream_id entry);
  Ok (<[key := entry]> instance).

(** [from_dict(cls, data)] *)
Definition from_dict (data : gmap string Value)
  : Result (gmap Key (CatalogEntry.t SchemaPlus)) :=
  streams ← Py.iter (Py.get_default data "streams" (VList []));
  MetadataMapping.for_each from_dict_body streams ∅.

(** The [streams] property: [list(self.values())]. *)
Definition streams (self : gmap Key (CatalogEntry.t SchemaPlus))
  : list (CatalogEntry.t SchemaPlus) :=
  (map_to_list self).*2.

(** [add_stream(self, entry)]; the catalog after the call. *)
Definition add_stream (self : gmap Key (CatalogEntry.t SchemaPlus))
  (entry : CatalogEntry.t SchemaPlus)
  : Result (gmap Key (CatalogEntry.t SchemaPlus)) :=
  key ← hash (CatalogEntry.tap_stream_id entry);
  Ok (<[key := entry]> self).

(** [get_stream(self, stream_id)]: [self.get(stream_id)]. *)
Definition get_stream (self : gmap Key (CatalogEntry.t SchemaPlus))
  (stream_id : Value) : Result (option (CatalogEntry.t SchemaPlus)) :=
  key ← hash stream_id;
  Ok (self !! key).

End catalog.

End Catalog.

(** ** Sample catalogs *)

Module Sample.

(** A stream the operator deselected, with a key field and a field that
    was selected on its own. *)
Definition deselected_stream : gmap Breadcrumb AnyMetadata :=
  Py.dict_of_pairs
    [([], StreamMetadata (VInclusion AVAILABLE) (VBool false) VNone
            (VList [VStr "id"]) VNone VNone VNone);
     (["properties"; "id"], Metadata (VInclusion AUTOMATIC) VNone VNone);
     (["properties"; "name"], Metadata (VInclusion AVAILABLE) (VBool true) VNone)].

(** A selected stream as parsed from a JSON catalog: inclusions are plain
    strings, one field is unsupported yet marked selected, one carries
    nothing and one only a default hint. *)
Definition selected_root : AnyMetadata :=
  StreamMetadata (VStr "available") (VBool true) VNone (VList [VStr "id"])
    (VStr "FULL_TABLE") VNone (VStr "users").

Definition selected_stream : gmap Breadcrumb AnyMetadata :=
  Py.dict_of_pairs
    [([], selected_root);
     (["properties"; "id"], Metadata (VStr "automatic") (VBool false) VNone);
     (["properties"; "name"], Metadata (VStr "available") VNone VNone);
     (["properties"; "hint"], Metadata (VStr "available") VNone (VBool false));
     (["properties"; "secret"], Metadata (VStr "unsupported") (VBool true) VNone)].

(** The schema of the example of section 8 of the specification:
    [{"properties": {"id": {}, "name": {}}}]. *)
Definition schema_properties : gmap string Value :=
  Py.dict_of_pairs [("id", VDict ∅); ("name", VDict ∅)].

Definition schema : gmap string Value :=
  Py.dict_of_pairs [("properties", VDict schema_properties)].

(** Modelled from the spec: [SchemaPlus.from_dict] is defined in
    [singer_sdk/helpers/_schema.py], which is not among the sources.
    Section 4.3 says only that the schema sub-document is parsed into the
    tree type; this stand-in takes a JSON object as the tree and finds no
    [get] to call on anything else. *)
Definition SchemaPlus_from_dict (data : Value) : Result (gmap string Value) :=
  Py.get_method data.

(** A stream description whose identity is a number. *)
Definition numbered_stream : gmap string Value :=
  Py.dict_of_pairs [("tap_stream_id", VInt 5)].

End Sample.

(** The record [_breadcrumb_is_selected] works on:
    [self.get(breadcrumb, Metadata())]. *)
Definition entry_of (σ : MetadataMapping.State) (b : Breadcrumb) : AnyMetadata :=
  default (Metadata VNone VNone VNone) (MetadataMapping.self σ !! b).

(** The class [from_iterable] instantiates at a breadcrumb. *)
Definition class_at (b : Breadcrumb) : MetadataClass :=
  if bool_decide (b ≠ []) then MetadataCls else StreamMetadataCls.

(** A record serialized and parsed again at breadcrumb [b]. *)
Definition reread (b : Breadcrumb) (md : AnyMetadata) : AnyMetadata :=
  Metadata.from_dict (class_at b) (Metadata.to_dict md).

(** The shape every mapping built by this module has: a [StreamMetadata] at
    the empty breadcrumb, a plain [Metadata] anywhere else. *)
Definition well_shaped (M : gmap Breadcrumb AnyMetadata) : Prop :=
  ∀ b md, M !! b = Some md → Metadata.class_of md = class_at b.

(** The root record [get_standard_metadata] builds for a non-empty schema. *)
Definition seed_root (schema_name : option string)
  (key_properties valid_replication_keys : option (list string))
  (replication_method : option string) : AnyMetadata :=
  StreamMetadata (VInclusion AVAILABLE) VNone VNone
    (MetadataMapping.opt_strs key_properties)
    (MetadataMapping.opt_str replication_method)
    (MetadataMapping.opt_strs valid_replication_keys)
    (match schema_name with
     | Some name => if bool_decide (name ≠ "") then VStr name else VNone
     | None => VNone
     end).

(** [name] is among the supplied key properties. *)
Definition key_property (key_properties : option (list string))
  (name : string) : Prop :=
  ∃ kp, key_properties = Some kp ∧ name ∈ kp.

(** The fields of a metadata record with the name each has in the exchange
    document, as section 6 of the specification spells them: underscores
    inside the program, hyphens on the wire. *)
Definition wire_form : list (string * string) :=
  [("inclusion", "inclusion");
   ("selected", "selected");
   ("selected_by_default", "selected-by-default");
   ("table_key_properties", "table-key-properties");
   ("forced_replication_method", "forced-replication-method");
   ("valid_replication_keys", "valid-replication-keys");
   ("schema_name", "schema-name")].

(** A value allowed by the annotation [bool | None]. *)
Definition flag (v : Value) : Prop := v = VNone ∨ ∃ b, v = VBool b.

(** A mapping whose records carry flags in [selected] and
    [selected_by_default], as the dataclass annotates them. *)
Definition typed_flags (M : gmap Breadcrumb AnyMetadata) : Prop :=
  ∀ b md, M !! b = Some md →
    flag (Metadata.selected md) ∧ flag (Metadata.selected_by_default md).

(** The breadcrumb [k] parent steps above [b]. *)
Definition ancestor (k : nat) (b : Breadcrumb) : Breadcrumb :=
  Nat.iter k Py.drop_last_two b.

(** * Properties *)

Import MetadataMapping.

(** ** The state monad *)

Ltac st_unfold :=
  unfold mbind, mret, St_bind, St_ret, get_self, __setitem__, logger_debug
    in *; simpl in *.

(** ** The embedding at work *)

Example wire_name_ex :
  Metadata.wire_name "selected_by_default" = "selected-by-default".
Proof. reflexivity. Qed.

Example from_dict_ex value :
  Metadata.from_dict MetadataCls value
  = Metadata (Py.get value "inclusion") (Py.get value "selected")
      (Py.get value "selected-by-default").
Proof. reflexivity. Qed.

Example drop_last_two_ex :
  Py.drop_last_two ["properties"; "address"; "properties"; "city"]
  = ["properties"; "address"]
  ∧ Py.drop_last_two ["properties"] = ([] : Breadcrumb).
Proof. split; reflexivity. Qed.

(** Section 8 of the specification: a child selected on its own under a
    deselected root resolves to [False]; the call logs nothing and leaves the
    mapping alone. *)
Example deselected_root_wins :
  _breadcrumb_is_selected ["properties"; "name"]
    (mkState Sample.deselected_stream [])
  = (VBool false, mkState Sample.deselected_stream []).
Proof. vm_compute; reflexivity. Qed.

(** A field with no instruction of its own inherits [True] from its parent,
    and the call says so to the logger. *)
Example child_inherits :
  _breadcrumb_is_selected ["properties"; "name"]
    (mkState Sample.selected_stream [])
  = (VBool true,
     mkState Sample.selected_stream
       [mkLog
          "Selection metadata omitted for '%s'. Using parent value of selected=%s."
          [LBreadcrumb ["properties"; "name"]; LValue (VBool true)]]).
Proof. vm_compute; reflexivity. Qed.

(** An unsupported field marked selected is reported and not selected. *)
Example unsupported_is_logged :
  _breadcrumb_is_selected ["properties"; "secret"]
    (mkState Sample.selected_stream [])
  = (VBool false,
     mkState Sample.selected_stream
       [mkLog
          "Property '%s' was selected but is not supported. Ignoring selected==True input."
          [LStr "properties:secret"]]).
Proof. vm_compute; reflexivity. Qed.

(** The mask of the sample stream, and a lookup below a key it does not
    hold. *)
Example resolve_selection_ex :
  let mask := (resolve_selection (mkState Sample.selected_stream [])).1 in
  mask !! [] = Some (VBool true)
  ∧ mask !! ["properties"; "id"] = Some (VBool true)
  ∧ mask !! ["properties"; "hint"] = Some (VBool false)
  ∧ mask !! ["properties"; "secret"] = Some (VBool false)
  ∧ mask !! ["properties"; "hint"; "properties"; "inner"] = None
  ∧ SelectionMask.__getitem__ mask ["properties"; "hint"; "properties"; "inner"]
    = VBool false.
Proof. vm_compute. repeat split; reflexivity. Qed.

(** The [root] property stores the record it makes up. *)
Example root_materializes :
  root (mkState ∅ [])
  = (StreamMetadata VNone VNone VNone VNone VNone VNone VNone,
     mkState {[ [] := StreamMetadata VNone VNone VNone VNone VNone VNone VNone ]}
       []).
Proof. vm_compute; reflexivity. Qed.

(** A plain [Metadata] at the root comes back from the list form as a
    [StreamMetadata]. *)
Example round_trip_ex :
  from_iterable (VList (to_list {[ [] := Metadata VNone (VBool true) VNone ]}))
  = Ok {[ [] := StreamMetadata VNone (VBool true) VNone VNone VNone VNone VNone ]}.
Proof. vm_compute; reflexivity. Qed.

(** Below the root a record is read back as a plain [Metadata]: stream-level
    fields it carried are written by [to_dict] and not read by [from_dict]. *)
Example stream_fields_below_root :
  Metadata.to_dict
    (StreamMetadata VNone VNone (VBool true) VNone VNone VNone (VStr "users"))
  = Py.dict_of_pairs
      [("selected-by-default", VBool true); ("schema-name", VStr "users")]
  ∧ Metadata.from_dict MetadataCls
      (Metadata.to_dict
         (StreamMetadata VNone VNone (VBool true) VNone VNone VNone
            (VStr "users")))
    = Metadata VNone VNone (VBool true).
Proof. split; vm_compute; reflexivity. Qed.

(** An entry without a breadcrumb, and a metadata list that is no list. *)
Example from_iterable_errors :
  from_iterable (VList [VDict {[ "metadata" := VDict ∅ ]}])
  = Raise (KeyError "breadcrumb")
  ∧ from_iterable (VInt 3) = Raise TypeError
  ∧ from_iterable (VList [VDict (Py.dict_of_pairs
                                   [("breadcrumb", VList []);
                                    ("metadata", VNone)])])
    = Raise AttributeError.
Proof. repeat split; vm_compute; reflexivity. Qed.

(** ** Breadcrumbs and their parents *)

Lemma drop_last_two_length {A} (l : list A) :
  length (Py.drop_last_two l) = length l - 2.
Proof. unfold Py.drop_last_two. rewrite length_take. lia. Qed.

Lemma is_False_spec v : Py.is_False v = true ↔ v = VBool false.
Proof. destruct v as [|[]| | | | |]; simpl; split; congruence. Qed.

Lemma is_None_spec v : Py.is_None v = true ↔ v = VNone.
Proof. destruct v; simpl; split; congruence. Qed.

Lemma truthy_dict_spec `{Countable K} {V} (d : gmap K V) :
  Py.truthy_dict d = false ↔ d = ∅.
Proof.
  unfold Py.truthy_dict. rewrite bool_decide_eq_false. split.
  - intros Hd. by destruct (decide (d = ∅)).
  - intros -> Hd. done.
Qed.

Lemma eq_inclusion_exclusive v i j :
  Py.eq_inclusion v i = true → i ≠ j → Py.eq_inclusion v j = false.
Proof.
  destruct v; simpl; try discriminate;
    rewrite bool_decide_eq_true, bool_decide_eq_false;
    intros -> Hij Heq; apply Hij; by destruct i, j.
Qed.

(** ** [select_entry]: frame and value *)

Lemma select_entry_self b md pv σ :
  self (select_entry b md pv σ).2 = self σ.
Proof.
  unfold select_entry.
  repeat (match goal with |- context [if ?c then _ else _] => destruct c end);
    st_unfold; reflexivity.
Qed.

Lemma select_entry_value b md pv σ σ' :
  (select_entry b md pv σ).1 = (select_entry b md pv σ').1.
Proof.
  unfold select_entry.
  repeat (match goal with |- context [if ?c then _ else _] => destruct c end);
    st_unfold; reflexivity.
Qed.

Lemma select_entry_parent_false b md σ :
  (select_entry b md (VBool false) σ).1 = VBool false.
Proof. reflexivity. Qed.

Lemma select_entry_unsupported b md pv σ :
  Py.eq_inclusion (Metadata.inclusion md) UNSUPPORTED = true →
  (select_entry b md pv σ).1 = VBool false.
Proof.
  intros Hinc. unfold select_entry. rewrite Hinc.
  destruct (Py.is_False pv) eqn:Hpv.
  - apply is_False_spec in Hpv as ->. reflexivity.
  - destruct (Py.is_True _); reflexivity.
Qed.

Lemma select_entry_automatic b md pv σ :
  Py.is_False pv = false →
  Py.eq_inclusion (Metadata.inclusion md) AUTOMATIC = true →
  (select_entry b md pv σ).1 = VBool true.
Proof.
  intros Hpv Hinc. unfold select_entry. rewrite Hpv, Hinc.
  rewrite (eq_inclusion_exclusive _ AUTOMATIC UNSUPPORTED) by done.
  destruct (Py.is_False (Metadata.selected md)); reflexivity.
Qed.

Lemma select_entry_fallback b md pv σ :
  Py.is_False pv = false →
  Py.eq_inclusion (Metadata.inclusion md) UNSUPPORTED = false →
  Py.eq_inclusion (Metadata.inclusion md) AUTOMATIC = false →
  (select_entry b md pv σ).1 =
    if negb (Py.is_None (Metadata.selected md)) then Metadata.selected md
    else if negb (Py.is_None (Metadata.selected_by_default md))
         then Metadata.selected_by_default md
         else Py.or pv (VBool false).
Proof.
  intros Hpv Hu Ha. unfold select_entry. rewrite Hpv, Hu, Ha.
  repeat (match goal with |- context [if ?c then _ else _] => destruct c end);
    reflexivity.
Qed.

(** ** [_breadcrumb_is_selected]: unfolding, frame and value *)

Lemma breadcrumb_is_selected_unfold b σ :
  _breadcrumb_is_selected b σ =
    if negb (Py.truthy_dict (self σ)) then (VBool true, σ)
    else if decide (0 < length b) then
      let r := _breadcrumb_is_selected (Py.drop_last_two b) σ in
      select_entry b (entry_of σ b) r.1 r.2
    else select_entry b (entry_of σ b) VNone σ.
Proof.
  rewrite _breadcrumb_is_selected_equation_1.
  destruct (decide (0 < length b)); simpl; st_unfold;
    destruct (negb (Py.truthy_dict (self σ))); try reflexivity.
  by destruct (_breadcrumb_is_selected (Py.drop_last_two b) σ).
Qed.

Lemma breadcrumb_is_selected_empty b σ :
  self σ = ∅ → _breadcrumb_is_selected b σ = (VBool true, σ).
Proof.
  intros He. rewrite breadcrumb_is_selected_unfold.
  by rewrite (proj2 (truthy_dict_spec (self σ)) He).
Qed.

Lemma breadcrumb_is_selected_root σ :
  self σ ≠ ∅ →
  _breadcrumb_is_selected [] σ = select_entry [] (entry_of σ []) VNone σ.
Proof.
  intros Hne. rewrite breadcrumb_is_selected_unfold.
  destruct (Py.truthy_dict (self σ)) eqn:Ht; [reflexivity|].
  by apply truthy_dict_spec in Ht.
Qed.

Lemma breadcrumb_is_selected_child b σ :
  self σ ≠ ∅ → b ≠ [] →
  _breadcrumb_is_selected b σ =
    select_entry b (entry_of σ b)
      (_breadcrumb_is_selected (Py.drop_last_two b) σ).1
      (_breadcrumb_is_selected (Py.drop_last_two b) σ).2.
Proof.
  intros Hne Hb. rewrite breadcrumb_is_selected_unfold at 1.
  destruct (Py.truthy_dict (self σ)) eqn:Ht;
    [|by apply truthy_dict_spec in Ht].
  simpl. destruct (decide (0 < length b)) as [|Hl]; [reflexivity|].
  destruct b; [done | simpl in Hl; lia].
Qed.

Lemma lookup_Some_nonempty `{Countable K} {V} (m : gmap K V) k v :
  m !! k = Some v → m ≠ ∅.
Proof. intros Hk ->. by rewrite lookup_empty in Hk. Qed.

(** The receiver is never written to, and the value returned depends on the
    receiver only, not on what was logged before. *)
Lemma breadcrumb_is_selected_frame_value n :
  ∀ b σ, length b ≤ n →
    self (_breadcrumb_is_selected b σ).2 = self σ
    ∧ ∀ σ', self σ' = self σ →
        (_breadcrumb_is_selected b σ').1 = (_breadcrumb_is_selected b σ).1.
Proof.
  induction n as [|n IH]; intros b σ Hn.
  - destruct b; [|simpl in Hn; lia].
    destruct (decide (self σ = ∅)) as [He|Hne].
    + split; [by rewrite breadcrumb_is_selected_empty|].
      intros σ' Hσ'. rewrite !breadcrumb_is_selected_empty by congruence. reflexivity.
    + split; [rewrite breadcrumb_is_selected_root by done;
              apply select_entry_self|].
      intros σ' Hσ'. rewrite !breadcrumb_is_selected_root by congruence.
      unfold entry_of. rewrite Hσ'. apply select_entry_value.
  - destruct (decide (self σ = ∅)) as [He|Hne].
    { split; [by rewrite breadcrumb_is_selected_empty|].
      intros σ' Hσ'. rewrite !breadcrumb_is_selected_empty by congruence. reflexivity. }
    destruct (decide (b = [])) as [->|Hb]; [apply IH; simpl; lia|].
    assert (length (Py.drop_last_two b) ≤ n) as Hp.
    { rewrite drop_last_two_length. destruct b; [done|simpl in *; lia]. }
    destruct (IH _ σ Hp) as [Hframe Hval].
    split.
    + rewrite breadcrumb_is_selected_child by done.
      rewrite select_entry_self. exact Hframe.
    + intros σ' Hσ'.
      rewrite (breadcrumb_is_selected_child b σ'),
        (breadcrumb_is_selected_child b σ) by congruence.
      rewrite (Hval σ' Hσ'). unfold entry_of. rewrite Hσ'.
      apply select_entry_value.
Qed.

Lemma breadcrumb_is_selected_self b σ :
  self (_breadcrumb_is_selected b σ).2 = self σ.
Proof. by apply (breadcrumb_is_selected_frame_value (length b)). Qed.

Lemma breadcrumb_is_selected_value b σ σ' :
  self σ' = self σ →
  (_breadcrumb_is_selected b σ').1 = (_breadcrumb_is_selected b σ).1.
Proof. by apply (breadcrumb_is_selected_frame_value (length b)). Qed.

(** ** Selection resolution *)

(** C1.  Downward monotonicity: whatever the mapping and whatever a non-empty
    breadcrumb's own record says, when the parent breadcrumb resolves to
    [False] so does the breadcrumb. *)
Theorem downward_monotonicity σ b :
  b ≠ [] →
  (_breadcrumb_is_selected (Py.drop_last_two b) σ).1 = VBool false →
  (_breadcrumb_is_selected b σ).1 = VBool false.
Proof.
  intros Hb Hparent.
  destruct (decide (self σ = ∅)) as [He|Hne].
  - by rewrite breadcrumb_is_selected_empty in Hparent.
  - rewrite breadcrumb_is_selected_child by done.
    rewrite Hparent. apply select_entry_parent_false.
Qed.

(** C2.  A breadcrumb whose record has inclusion [unsupported] resolves to
    [False], whatever the record's [selected]. *)
Theorem unsupported_never_selected σ b md :
  self σ !! b = Some md →
  Py.eq_inclusion (Metadata.inclusion md) UNSUPPORTED = true →
  (_breadcrumb_is_selected b σ).1 = VBool false.
Proof.
  intros Hmd Hinc.
  assert (self σ ≠ ∅) as Hne by eauto using lookup_Some_nonempty.
  assert (entry_of σ b = md) as Hentry by (unfold entry_of; by rewrite Hmd).
  destruct (decide (b = [])) as [->|Hb].
  - rewrite breadcrumb_is_selected_root, Hentry by done.
    by apply select_entry_unsupported.
  - rewrite breadcrumb_is_selected_child, Hentry by done.
    by apply select_entry_unsupported.
Qed.

Lemma downward_monotonicity_witness :
  (_breadcrumb_is_selected ["properties"; "name"]
     (mkState Sample.deselected_stream [])).1 = VBool false.
Proof.
  apply downward_monotonicity; [discriminate | vm_compute; reflexivity].
Defined.

Lemma unsupported_never_selected_witness :
  (_breadcrumb_is_selected ["properties"; "secret"]
     (mkState Sample.selected_stream [])).1 = VBool false.
Proof.
  apply (unsupported_never_selected _ _
           (Metadata (VStr "unsupported") (VBool true) VNone));
    vm_compute; reflexivity.
Defined.

Lemma is_False_false v : v ≠ VBool false → Py.is_False v = false.
Proof.
  intros Hv. destruct (Py.is_False v) eqn:Hf; [|reflexivity].
  by apply is_False_spec in Hf.
Qed.

(** C3, as stated, fails: a record with inclusion [automatic] below a
    deselected stream resolves to [False]. *)
Lemma automatic_below_deselected_parent :
  let σ := mkState Sample.deselected_stream [] in
  let b := ["properties"; "id"] in
  ∃ md, self σ !! b = Some md
        ∧ Py.eq_inclusion (Metadata.inclusion md) AUTOMATIC = true
        ∧ (_breadcrumb_is_selected b σ).1 = VBool false
        ∧ (_breadcrumb_is_selected b σ).1 ≠ VBool true.
Proof.
  exists (Metadata (VInclusion AUTOMATIC) VNone VNone).
  repeat split; try (vm_compute; reflexivity).
  vm_compute. discriminate.
Qed.

(** C3, amended.  A breadcrumb whose record has inclusion [automatic]
    resolves to [True], whatever the record's [selected], provided its
    parent (when it has one) does not resolve to [False]. *)
Theorem automatic_selected_under_live_parent σ b md :
  self σ !! b = Some md →
  Py.eq_inclusion (Metadata.inclusion md) AUTOMATIC = true →
  (b ≠ [] →
   (_breadcrumb_is_selected (Py.drop_last_two b) σ).1 ≠ VBool false) →
  (_breadcrumb_is_selected b σ).1 = VBool true.
Proof.
  intros Hmd Hinc Hparent.
  assert (self σ ≠ ∅) as Hne by eauto using lookup_Some_nonempty.
  assert (entry_of σ b = md) as Hentry by (unfold entry_of; by rewrite Hmd).
  destruct (decide (b = [])) as [->|Hb].
  - rewrite breadcrumb_is_selected_root, Hentry by done.
    by apply select_entry_automatic.
  - rewrite breadcrumb_is_selected_child, Hentry by done.
    apply select_entry_automatic; [|done].
    apply is_False_false. auto.
Qed.

Lemma automatic_selected_under_live_parent_witness :
  (_breadcrumb_is_selected ["properties"; "id"]
     (mkState Sample.selected_stream [])).1 = VBool true.
Proof.
  apply (automatic_selected_under_live_parent _ _
           (Metadata (VStr "automatic") (VBool false) VNone)).
  - vm_compute; reflexivity.
  - vm_compute; reflexivity.
  - intros _. vm_compute. discriminate.
Defined.

(** C4.  Fallback precedence within one node.  In a non-empty mapping, for a
    breadcrumb whose record (the default record when it has none) has an
    inclusion that is neither [unsupported] nor [automatic], and whose parent,
    when it has one, resolves to [True]: the result is the record's
    [selected] when that is set, else its [selected_by_default] when that is
    set, else the parent's value; the root, having no parent, then resolves
    to [False]. *)
Theorem fallback_precedence σ b :
  self σ ≠ ∅ →
  Py.eq_inclusion (Metadata.inclusion (entry_of σ b)) UNSUPPORTED = false →
  Py.eq_inclusion (Metadata.inclusion (entry_of σ b)) AUTOMATIC = false →
  (b ≠ [] →
   (_breadcrumb_is_selected (Py.drop_last_two b) σ).1 = VBool true) →
  (_breadcrumb_is_selected b σ).1 =
    if negb (Py.is_None (Metadata.selected (entry_of σ b)))
    then Metadata.selected (entry_of σ b)
    else if negb (Py.is_None (Metadata.selected_by_default (entry_of σ b)))
    then Metadata.selected_by_default (entry_of σ b)
    else if decide (b = []) then VBool false
    else (_breadcrumb_is_selected (Py.drop_last_two b) σ).1.
Proof.
  intros Hne Hu Ha Hparent.
  destruct (decide (b = [])) as [->|Hb].
  - rewrite breadcrumb_is_selected_root by done.
    by rewrite select_entry_fallback.
  - rewrite breadcrumb_is_selected_child by done.
    rewrite (Hparent Hb). by rewrite select_entry_fallback.
Qed.

Lemma fallback_precedence_witness :
  (_breadcrumb_is_selected ["properties"; "hint"]
     (mkState Sample.selected_stream [])).1 = VBool false.
Proof.
  etrans; [apply fallback_precedence|].
  - apply (lookup_Some_nonempty _ [] (Sample.selected_root)).
    vm_compute; reflexivity.
  - vm_compute; reflexivity.
  - vm_compute; reflexivity.
  - intros _. vm_compute; reflexivity.
  - vm_compute; reflexivity.
Defined.

(** ** Dictionaries built from pairs *)

Lemma foldl_insert_union `{Countable K} {V} (l : list (K * V)) (acc : gmap K V) :
  NoDup l.*1 →
  (∀ k, k ∈ l.*1 → acc !! k = None) →
  foldl (λ acc kv, <[kv.1 := kv.2]> acc) acc l = list_to_map l ∪ acc.
Proof.
  revert acc. induction l as [|[k v] l IH]; intros acc Hnd Hfresh; csimpl in *.
  - by rewrite (left_id_L ∅ (∪)).
  - apply NoDup_cons in Hnd as [Hk Hnd].
    rewrite IH; [|done|].
    + rewrite <-insert_union_l. symmetry. apply insert_union_r.
      by apply not_elem_of_list_to_map_1.
    + intros k' Hk'. rewrite lookup_insert_ne by (intros ->; done).
      apply Hfresh. by apply elem_of_cons; right.
Qed.

Lemma dict_of_pairs_NoDup `{Countable K} {V} (l : list (K * V)) :
  NoDup l.*1 → Py.dict_of_pairs l = list_to_map l.
Proof.
  intros Hnd. unfold Py.dict_of_pairs.
  rewrite foldl_insert_union by (done || by intros; apply lookup_empty).
  by rewrite (right_id_L ∅ (∪)).
Qed.

(** ** [SelectionMask] lookups *)

Lemma mask_missing_empty n :
  ∀ b : Breadcrumb, length b ≤ n → SelectionMask.__missing__ ∅ b = VBool true.
Proof.
  induction n as [|n IH]; intros b Hn;
    rewrite SelectionMask.__missing___equation_1;
    destruct (decide (2 ≤ length b)) as [Hl|Hl]; simpl; try reflexivity.
  - lia.
  - rewrite lookup_empty. apply IH. rewrite drop_last_two_length. lia.
Qed.

(** ** [resolve_selection] *)

Lemma selected_pairs_spec bs :
  ∀ σ, self (selected_pairs bs σ).2 = self σ
       ∧ (selected_pairs bs σ).1
         = (λ b, (b, (_breadcrumb_is_selected b σ).1)) <$> bs.
Proof.
  induction bs as [|b bs IH]; intros σ; [done|].
  simpl. st_unfold.
  pose proof (breadcrumb_is_selected_self b σ) as Hself.
  destruct (_breadcrumb_is_selected b σ) as [v σ1] eqn:Hrun. simpl in *.
  destruct (IH σ1) as [Hself1 Hval1].
  destruct (selected_pairs bs σ1) as [pairs σ2]. simpl in *.
  split; [congruence|].
  rewrite Hval1. f_equal.
  apply list_fmap_ext. intros _ b' _. f_equal.
  by apply breadcrumb_is_selected_value.
Qed.

Lemma resolve_selection_run σ :
  resolve_selection σ =
    (list_to_map ((λ b, (b, (_breadcrumb_is_selected b σ).1))
                    <$> (map_to_list (self σ)).*1),
     (selected_pairs (map_to_list (self σ)).*1 σ).2).
Proof.
  unfold resolve_selection. st_unfold.
  destruct (selected_pairs_spec (map_to_list (self σ)).*1 σ) as [_ Hval].
  destruct (selected_pairs _ σ) as [pairs σ']. simpl in *. subst pairs.
  f_equal. apply dict_of_pairs_NoDup.
  rewrite <-list_fmap_compose.
  replace (fst ∘ (λ b, (b, (_breadcrumb_is_selected b σ).1))) with (@id Breadcrumb) by done.
  rewrite list_fmap_id. apply NoDup_fst_map_to_list.
Qed.

(** The mask holds, for each key of the mapping, what
    [_breadcrumb_is_selected] returns for it. *)
Lemma resolve_selection_lookup σ b :
  (resolve_selection σ).1 !! b =
    if decide (b ∈ dom (self σ)) then Some (_breadcrumb_is_selected b σ).1
    else None.
Proof.
  rewrite resolve_selection_run. simpl.
  set (f := λ b : Breadcrumb, (b, (_breadcrumb_is_selected b σ).1)).
  assert (fst <$> (f <$> (map_to_list (self σ)).*1) = (map_to_list (self σ)).*1)
    as Hkeys.
  { rewrite <-list_fmap_compose. by rewrite list_fmap_id. }
  case_decide as Hb.
  - apply elem_of_list_to_map.
    + rewrite Hkeys. apply NoDup_fst_map_to_list.
    + apply list_elem_of_fmap. exists b. split; [done|].
      apply elem_of_dom in Hb as [md Hmd].
      apply list_elem_of_fmap. exists (b, md). split; [done|].
      by apply elem_of_map_to_list.
  - apply not_elem_of_list_to_map_1. rewrite Hkeys.
    intros [[b' md] [-> Hin]]%list_elem_of_fmap.
    apply elem_of_map_to_list in Hin. apply Hb, elem_of_dom. eauto.
Qed.

(** C8.  The mask of [resolve_selection] has exactly the keys of the mapping,
    and the call leaves the mapping as it was: no entry is created for a
    breadcrumb that was not a key, parents walked on the way included. *)
Theorem resolve_selection_keys_and_frame σ :
  dom (resolve_selection σ).1 = dom (self σ)
  ∧ self (resolve_selection σ).2 = self σ.
Proof.
  split.
  - apply set_eq. intros b. rewrite !elem_of_dom.
    rewrite resolve_selection_lookup. case_decide as Hb.
    + apply elem_of_dom in Hb. split; eauto.
    + split; [by intros [? ?]|]. intros Hs. by apply elem_of_dom in Hs.
  - rewrite resolve_selection_run. simpl. apply selected_pairs_spec.
Qed.

(** C5.  On an empty mapping, the mask answers [True] for every breadcrumb. *)
Theorem empty_mapping_selects_everything σ b :
  self σ = ∅ →
  SelectionMask.__getitem__ (resolve_selection σ).1 b = VBool true.
Proof.
  intros He.
  assert ((resolve_selection σ).1 = ∅) as ->.
  { apply map_eq. intros k. rewrite resolve_selection_lookup, He.
    rewrite dom_empty_L, lookup_empty. by case_decide. }
  unfold SelectionMask.__getitem__. rewrite lookup_empty.
  by apply (mask_missing_empty (length b)).
Qed.

Lemma empty_mapping_selects_everything_witness :
  SelectionMask.__getitem__ (resolve_selection (mkState ∅ [])).1
    ["properties"; "address"; "properties"; "city"] = VBool true.
Proof. by apply empty_mapping_selects_everything. Defined.

(** ** Missing keys of a mapping *)

(** C7.  Looking up a breadcrumb that has no entry does not fail: it yields
    (and stores) a default [StreamMetadata] for the empty breadcrumb and a
    default [Metadata] for any other, every field [None]. *)
Theorem missing_key_default σ b :
  self σ !! b = None →
  __getitem__ b σ =
    let fresh :=
      if decide (b = [])
      then StreamMetadata VNone VNone VNone VNone VNone VNone VNone
      else Metadata VNone VNone VNone in
    (fresh, mkState (<[b := fresh]> (self σ)) (logged σ)).
Proof.
  intros Hb. unfold __getitem__, __missing__. st_unfold. rewrite Hb.
  st_unfold. rewrite lookup_insert_eq. simpl.
  destruct (decide (b = [])) as [->|Hne].
  - by rewrite bool_decide_eq_false_2 by (by intros ?).
  - by rewrite bool_decide_eq_true_2.
Qed.

Lemma missing_key_default_witness :
  (__getitem__ [] (mkState ∅ [])).1
    = StreamMetadata VNone VNone VNone VNone VNone VNone VNone
  ∧ (__getitem__ ["properties"; "id"] (mkState Sample.selected_stream [])).1
    = Metadata (VStr "automatic") (VBool false) VNone
  ∧ (__getitem__ ["properties"; "zip"] (mkState Sample.selected_stream [])).1
    = Metadata VNone VNone VNone.
Proof.
  split; [|split].
  - by rewrite missing_key_default.
  - vm_compute; reflexivity.
  - rewrite missing_key_default; [reflexivity | vm_compute; reflexivity].
Defined.

(** ** Serialization of one record *)

Lemma to_dict_fold_other (l : list (string * Value)) acc k :
  k ∉ Metadata.wire_name <$> l.*1 →
  foldl Metadata.to_dict_step acc l !! k = acc !! k.
Proof.
  revert acc. induction l as [|[n v] l IH]; intros acc Hk; csimpl in *; [done|].
  apply not_elem_of_cons in Hk as [Hn Hk]. rewrite IH by done.
  destruct (Py.is_None v); [done|]. by rewrite lookup_insert_ne.
Qed.

Lemma to_dict_fold_get (l : list (string * Value)) acc name value :
  NoDup (Metadata.wire_name <$> l.*1) →
  (name, value) ∈ l →
  acc !! Metadata.wire_name name = None →
  Py.get (foldl Metadata.to_dict_step acc l) (Metadata.wire_name name) = value.
Proof.
  revert acc. induction l as [|[n v] l IH]; intros acc Hnd Hin Hacc; csimpl in *.
  { by apply elem_of_nil in Hin. }
  apply NoDup_cons in Hnd as [Hn Hnd].
  apply elem_of_cons in Hin as [[= -> ->]|Hin].
  - unfold Py.get. rewrite to_dict_fold_other by done.
    destruct (Py.is_None v) eqn:Hv.
    + apply is_None_spec in Hv as ->. by rewrite Hacc.
    + by rewrite lookup_insert_eq.
  - apply IH; [done..|].
    assert (Metadata.wire_name n ≠ Metadata.wire_name name) as Hne.
    { intros Heq. apply Hn. rewrite Heq.
      apply list_elem_of_fmap. exists name. split; [done|].
      apply list_elem_of_fmap. by exists (name, value). }
    destruct (Py.is_None v); [done|]. by rewrite lookup_insert_ne.
Qed.

Lemma field_values_wire_NoDup md :
  NoDup (Metadata.wire_name <$> (Metadata.field_values md).*1).
Proof. destruct md; apply (bool_decide_unpack _); vm_compute; exact I. Qed.

(** Reading back a field that was written gives its value, [None] included. *)
Lemma to_dict_get md name value :
  (name, value) ∈ Metadata.field_values md →
  Py.get (Metadata.to_dict md) (Metadata.wire_name name) = value.
Proof.
  intros Hin. unfold Metadata.to_dict.
  apply to_dict_fold_get; [apply field_values_wire_NoDup | done |].
  apply lookup_empty.
Qed.

(** Reading a field the record does not have gives [None]. *)
Lemma to_dict_get_absent md name :
  Metadata.wire_name name ∉ Metadata.wire_name <$> (Metadata.field_values md).*1 →
  Py.get (Metadata.to_dict md) (Metadata.wire_name name) = VNone.
Proof.
  intros Hout. unfold Metadata.to_dict, Py.get.
  by rewrite to_dict_fold_other, lookup_empty.
Qed.

Lemma from_dict_Metadata value :
  Metadata.from_dict MetadataCls value
  = Metadata (Py.get value (Metadata.wire_name "inclusion"))
      (Py.get value (Metadata.wire_name "selected"))
      (Py.get value (Metadata.wire_name "selected_by_default")).
Proof. reflexivity. Qed.

Lemma from_dict_StreamMetadata value :
  Metadata.from_dict StreamMetadataCls value
  = StreamMetadata (Py.get value (Metadata.wire_name "inclusion"))
      (Py.get value (Metadata.wire_name "selected"))
      (Py.get value (Metadata.wire_name "selected_by_default"))
      (Py.get value (Metadata.wire_name "table_key_properties"))
      (Py.get value (Metadata.wire_name "forced_replication_method"))
      (Py.get value (Metadata.wire_name "valid_replication_keys"))
      (Py.get value (Metadata.wire_name "schema_name")).
Proof. reflexivity. Qed.

Ltac read_field :=
  first
    [ apply to_dict_get; simpl; set_solver
    | apply to_dict_get_absent; apply (bool_decide_unpack _);
      vm_compute; exact I ].

(** A record written and read back as the same class is unchanged. *)
Lemma from_dict_to_dict md :
  Metadata.from_dict (Metadata.class_of md) (Metadata.to_dict md) = md.
Proof.
  destruct md; simpl;
    rewrite ?from_dict_Metadata, ?from_dict_StreamMetadata;
    f_equal; read_field.
Qed.

(** Read back as the other class, a record keeps the three common fields;
    the stream-level ones are dropped or left unset. *)
Lemma from_dict_to_dict_Metadata md :
  Metadata.from_dict MetadataCls (Metadata.to_dict md)
  = Metadata (Metadata.inclusion md) (Metadata.selected md)
      (Metadata.selected_by_default md).
Proof.
  rewrite from_dict_Metadata. destruct md; simpl; f_equal; read_field.
Qed.

Lemma from_dict_to_dict_Stream i s d :
  Metadata.from_dict StreamMetadataCls (Metadata.to_dict (Metadata i s d))
  = StreamMetadata i s d VNone VNone VNone VNone.
Proof. rewrite from_dict_StreamMetadata. f_equal; read_field. Qed.

Lemma from_dict_to_dict_StreamMetadata i s d tkp frm vrk sn :
  Metadata.from_dict StreamMetadataCls
    (Metadata.to_dict (StreamMetadata i s d tkp frm vrk sn))
  = StreamMetadata i s d tkp frm vrk sn.
Proof. apply (from_dict_to_dict (StreamMetadata i s d tkp frm vrk sn)). Qed.

(** ** Serialization of a mapping *)

Lemma reread_common b md :
  Metadata.inclusion (reread b md) = Metadata.inclusion md
  ∧ Metadata.selected (reread b md) = Metadata.selected md
  ∧ Metadata.selected_by_default (reread b md)
    = Metadata.selected_by_default md.
Proof.
  unfold reread. destruct (class_at b).
  - by rewrite from_dict_to_dict_Metadata.
  - destruct md as [i s d|i s d tkp frm vrk sn].
    + by rewrite from_dict_to_dict_Stream.
    + by rewrite from_dict_to_dict_StreamMetadata.
Qed.

Lemma reread_root_fields md name value :
  (name, value) ∈ Metadata.field_values md →
  (name, value) ∈ Metadata.field_values (reread [] md).
Proof.
  unfold reread. change (class_at []) with StreamMetadataCls.
  destruct md as [i s d|i s d tkp frm vrk sn].
  - rewrite from_dict_to_dict_Stream. simpl.
    rewrite !elem_of_cons, !elem_of_nil. tauto.
  - by rewrite from_dict_to_dict_StreamMetadata.
Qed.

Lemma reread_same_class b md :
  Metadata.class_of md = class_at b → reread b md = md.
Proof. intros Hc. unfold reread. rewrite <-Hc. apply from_dict_to_dict. Qed.

Lemma as_key_strs (k : Breadcrumb) : as_key (VStr <$> k) = Ok k.
Proof. induction k as [|s k IH]; [done|]. csimpl. by rewrite IH. Qed.

#[local] Arguments Metadata.from_dict : simpl never.
#[local] Arguments Metadata.to_dict : simpl never.

Lemma from_iterable_body_item mapping k v :
  from_iterable_body mapping (to_list_item (k, v))
  = Ok (<[k := reread k v]> mapping).
Proof.
  unfold from_iterable_body, to_list_item, Py.dict_of_pairs, Py.getitem.
  simpl.
  rewrite (lookup_insert_ne _ "metadata" "breadcrumb") by done.
  rewrite !lookup_insert_eq. simpl.
  rewrite as_key_strs. simpl. do 2 f_equal.
  unfold reread, class_at. by destruct k.
Qed.

#[local] Arguments from_iterable_body : simpl never.
#[local] Arguments to_list_item : simpl never.

Lemma for_each_items (l : list (Breadcrumb * AnyMetadata)) acc :
  for_each from_iterable_body (to_list_item <$> l) acc
  = Ok (foldl (λ acc kv, <[kv.1 := kv.2]> acc) acc
          ((λ kv, (kv.1, reread kv.1 kv.2)) <$> l)).
Proof.
  revert acc. induction l as [|[k v] l IH]; intros acc; [done|].
  csimpl. rewrite from_iterable_body_item. simpl. apply IH.
Qed.

Lemma reread_keys (l : list (Breadcrumb * AnyMetadata)) :
  ((λ kv, (kv.1, reread kv.1 kv.2)) <$> l).*1 = l.*1.
Proof. rewrite <-list_fmap_compose. by apply list_fmap_ext. Qed.

Lemma from_iterable_to_list M :
  from_iterable (VList (to_list M))
  = Ok (list_to_map ((λ kv, (kv.1, reread kv.1 kv.2)) <$> map_to_list M)).
Proof.
  unfold from_iterable, to_list. simpl. rewrite for_each_items.
  f_equal. apply dict_of_pairs_NoDup.
  rewrite reread_keys. apply NoDup_fst_map_to_list.
Qed.

Lemma reread_lookup (M : gmap Breadcrumb AnyMetadata) b :
  (list_to_map ((λ kv, (kv.1, reread kv.1 kv.2)) <$> map_to_list M)
     : gmap Breadcrumb AnyMetadata) !! b
  = reread b <$> M !! b.
Proof.
  apply option_eq. intros md'.
  rewrite <-elem_of_list_to_map
    by (rewrite reread_keys; apply NoDup_fst_map_to_list).
  rewrite list_elem_of_fmap, fmap_Some. split.
  - intros [[k v] [[= -> ->] Hin]]. apply elem_of_map_to_list in Hin. eauto.
  - intros [md [Hmd ->]]. exists (b, md). split; [done|].
    by apply elem_of_map_to_list.
Qed.

(** ** The wire form of a record *)

Lemma to_dict_fold_lookup (l : list (string * Value)) acc k v :
  foldl Metadata.to_dict_step acc l !! k = Some v →
  acc !! k = Some v
  ∨ (v ≠ VNone ∧ ∃ name, (name, v) ∈ l ∧ k = Metadata.wire_name name).
Proof.
  revert acc. induction l as [|[n x] l IH]; intros acc Hk; simpl in *; [by left|].
  apply IH in Hk as [Hk|(Hv & name & Hin & ->)].
  - destruct (Py.is_None x) eqn:Hx; [by left|].
    destruct (decide (Metadata.wire_name n = k)) as [<-|Hne].
    + rewrite lookup_insert_eq in Hk. injection Hk as ->. right. split.
      * intros ->. discriminate.
      * exists n. split; [by left|done].
    + rewrite lookup_insert_ne in Hk by done. by left.
  - right. split; [done|]. exists name. split; [by right|done].
Qed.

Lemma to_dict_no_None md k : Metadata.to_dict md !! k ≠ Some VNone.
Proof.
  intros Hk. apply to_dict_fold_lookup in Hk as [Hk|[Hv _]]; [|done].
  by rewrite lookup_empty in Hk.
Qed.

Lemma get_to_dict_lookup md k :
  Metadata.to_dict md !! k =
    if Py.is_None (Py.get (Metadata.to_dict md) k) then None
    else Some (Py.get (Metadata.to_dict md) k).
Proof.
  pose proof (to_dict_no_None md k) as Hno. unfold Py.get.
  destruct (Metadata.to_dict md !! k) as [[]|]; simpl; done.
Qed.

Ltac each_wire_name H :=
  unfold wire_form in H;
  repeat (apply elem_of_cons in H as [[= -> ->]|H]);
  [..|by apply elem_of_nil in H].

(** What [to_dict] holds under the wire name of a field: the value of the
    field when the record has the field and it is set, nothing otherwise. *)
Lemma to_dict_wire md name wire :
  (name, wire) ∈ wire_form →
  Metadata.to_dict md !! wire =
    match Metadata.getattr md name with
    | Some v => if Py.is_None v then None else Some v
    | None => None
    end.
Proof.
  intros Hin. rewrite get_to_dict_lookup.
  assert (Py.get (Metadata.to_dict md) wire
          = default VNone (Metadata.getattr md name)) as ->.
  { destruct md; each_wire_name Hin;
      match goal with
      | |- _ = default VNone (Metadata.getattr ?md ?name) =>
          let r := eval vm_compute in (Metadata.getattr md name) in
          lazymatch r with
          | Some ?v =>
              exact (to_dict_get md name v ltac:(simpl; repeat constructor))
          | None =>
              exact (to_dict_get_absent md name
                       ltac:(apply (bool_decide_unpack _); vm_compute; exact I))
          end
      end. }
  by destruct md; each_wire_name Hin.
Qed.

(** [to_dict] writes no key outside the wire names. *)
Lemma to_dict_keys_wire md k :
  is_Some (Metadata.to_dict md !! k) → k ∈ wire_form.*2.
Proof.
  intros [v Hk]. apply to_dict_fold_lookup in Hk as [Hk|(_ & name & Hin & ->)].
  { by rewrite lookup_empty in Hk. }
  destruct md; simpl in Hin;
    repeat (apply elem_of_cons in Hin as [[= -> ->]|Hin]);
    try (by apply elem_of_nil in Hin);
    apply (bool_decide_unpack _); vm_compute; exact I.
Qed.

(** [from_dict] reads each field of its class under its wire name. *)
Lemma from_dict_wire cls (value : gmap string Value) name wire :
  (name, wire) ∈ wire_form →
  name ∈ Metadata.fields cls →
  Metadata.getattr (Metadata.from_dict cls value) name
  = Some (Py.get value wire).
Proof.
  intros Hin Hname.
  destruct cls; rewrite ?from_dict_Metadata, ?from_dict_StreamMetadata;
    each_wire_name Hin; try reflexivity;
    simpl in Hname; rewrite !elem_of_cons, elem_of_nil in Hname;
    repeat (destruct Hname as [Hname|Hname]; [discriminate|]); done.
Qed.

(** C6.  Round trip of a mapping through its list form.  Parsing
    [to_list(M)] succeeds and gives a mapping with the keys of [M] in which
    every record has the [inclusion], [selected] and [selected_by_default] of
    the record of [M], and the root record every field of the root record of
    [M]; when [M] has a [StreamMetadata] at the root and plain [Metadata]
    elsewhere, the result is [M] itself.  On the wire each record of [M] is an
    entry of the list whose [metadata] dict holds, under the hyphenated name
    of each field, the value of the field when it is set, and no other key;
    parsing reads each field of a record under the same hyphenated name. *)
Theorem metadata_round_trip (M : gmap Breadcrumb AnyMetadata) :
  ∃ M', from_iterable (VList (to_list M)) = Ok M'
    ∧ dom M' = dom M
    ∧ (∀ b md, M !! b = Some md →
         ∃ md', M' !! b = Some md'
           ∧ Metadata.inclusion md' = Metadata.inclusion md
           ∧ Metadata.selected md' = Metadata.selected md
           ∧ Metadata.selected_by_default md' = Metadata.selected_by_default md
           ∧ (b = [] → ∀ name value,
                (name, value) ∈ Metadata.field_values md →
                (name, value) ∈ Metadata.field_values md'))
    ∧ (well_shaped M → M' = M)
    ∧ (∀ b md, M !! b = Some md →
         ∃ d : gmap string Value,
           VDict (Py.dict_of_pairs
                    [("breadcrumb", VList (VStr <$> b)); ("metadata", VDict d)])
           ∈ to_list M
           ∧ (∀ name wire, (name, wire) ∈ wire_form →
                d !! wire =
                  match Metadata.getattr md name with
                  | Some v => if Py.is_None v then None else Some v
                  | None => None
                  end)
           ∧ (∀ k, is_Some (d !! k) → k ∈ wire_form.*2))
    ∧ (∀ cls (value : gmap string Value) name wire,
         (name, wire) ∈ wire_form →
         name ∈ Metadata.fields cls →
         Metadata.getattr (Metadata.from_dict cls value) name
         = Some (Py.get value wire)).
Proof.
  eexists. split; [apply from_iterable_to_list|].
  split; [|split; [|split; [|split]]].
  - apply set_eq. intros b. rewrite !elem_of_dom, reread_lookup.
    by rewrite fmap_is_Some.
  - intros b md Hmd. exists (reread b md).
    rewrite reread_lookup, Hmd.
    destruct (reread_common b md) as (Hi & Hs & Hd).
    repeat split; try done.
    intros -> name value. apply reread_root_fields.
  - intros Hshape. apply map_eq. intros b. rewrite reread_lookup.
    destruct (M !! b) as [md|] eqn:Hmd; [|done].
    simpl. f_equal. apply reread_same_class. by apply Hshape.
  - intros b md Hmd. exists (Metadata.to_dict md). split; [|split].
    + apply list_elem_of_fmap. exists (b, md). split; [done|].
      by apply elem_of_map_to_list.
    + intros name wire Hin. by apply to_dict_wire.
    + apply to_dict_keys_wire.
  - intros cls value name wire. apply from_dict_wire.
Qed.

(** ** [get_standard_metadata] *)

Lemma is_key_property_spec key_properties name :
  is_key_property key_properties name = true
  ↔ key_property key_properties name.
Proof.
  unfold is_key_property, key_property. destruct key_properties as [kp|].
  - rewrite andb_true_iff, !bool_decide_eq_true. split.
    + intros [_ Hin]. eauto.
    + intros (kp' & [= <-] & Hin). split; [|done].
      intros ->. by apply elem_of_nil in Hin.
  - split; [done|]. by intros (? & ? & ?).
Qed.

Lemma seed_fold_other key_properties names acc (b : Breadcrumb) :
  (∀ name, name ∈ names → b ≠ ["properties"; name]) →
  foldl (seed_field key_properties) acc names !! b = acc !! b.
Proof.
  revert acc. induction names as [|n names IH]; intros acc Hb; [done|].
  simpl. rewrite IH by (intros; apply Hb; by right).
  unfold seed_field. apply lookup_insert_ne. intros Heq.
  by apply (Hb n); [left|].
Qed.

Lemma seed_fold_field key_properties names acc name :
  name ∈ names →
  foldl (seed_field key_properties) acc names !! ["properties"; name]
  = Some (if is_key_property key_properties name
          then Metadata (VInclusion AUTOMATIC) VNone VNone
          else Metadata (VInclusion AVAILABLE) VNone VNone).
Proof.
  revert acc. induction names as [|n names IH]; intros acc Hin.
  { by apply elem_of_nil in Hin. }
  simpl. destruct (decide (name ∈ names)) as [Hrest|Hrest]; [by apply IH|].
  apply elem_of_cons in Hin as [->|Hin]; [|done].
  rewrite seed_fold_other by (intros name' Hin' [= ->]; done).
  unfold seed_field. apply lookup_insert_eq.
Qed.

Lemma seed_fold_dom key_properties names acc :
  dom (foldl (seed_field key_properties) acc names)
  = dom acc ∪ list_to_set ((λ name, ["properties"; name]) <$> names).
Proof.
  revert acc. induction names as [|n names IH]; intros acc; csimpl.
  - by rewrite (right_id_L ∅ (∪)).
  - rewrite IH. unfold seed_field. rewrite dom_insert_L.
    by rewrite (assoc_L (∪)), (comm_L (∪) (dom acc)).
Qed.

(** C10.  Seed mapping of a non-empty schema.  The root record has inclusion
    [available] and carries the key properties, the replication method and
    the valid replication keys that were passed.  When the schema lists
    [properties], each name listed has an entry at [("properties", name)],
    with inclusion [automatic] for a key property and [available] for any
    other name, and the mapping has no further entry.  When the schema has no
    [properties], the call succeeds and the mapping holds the root only. *)
Theorem standard_metadata_seed (schema : gmap string Value) schema_name
    key_properties valid_replication_keys replication_method :
  schema ≠ ∅ →
  let root :=
    seed_root schema_name key_properties valid_replication_keys
      replication_method in
  let result :=
    get_standard_metadata (Some schema) schema_name key_properties
      valid_replication_keys replication_method in
  Metadata.inclusion root = VInclusion AVAILABLE
  ∧ Metadata.getattr root "table_key_properties"
    = Some (opt_strs key_properties)
  ∧ Metadata.getattr root "forced_replication_method"
    = Some (opt_str replication_method)
  ∧ Metadata.getattr root "valid_replication_keys"
    = Some (opt_strs valid_replication_keys)
  ∧ (schema !! "properties" = None → result = Ok {[ [] := root ]})
  ∧ (∀ properties, schema !! "properties" = Some (VDict properties) →
       ∃ mapping, result = Ok mapping
         ∧ mapping !! [] = Some root
         ∧ (∀ name, is_Some (properties !! name) →
              key_property key_properties name →
              mapping !! ["properties"; name]
              = Some (Metadata (VInclusion AUTOMATIC) VNone VNone))
         ∧ (∀ name, is_Some (properties !! name) →
              ¬ key_property key_properties name →
              mapping !! ["properties"; name]
              = Some (Metadata (VInclusion AVAILABLE) VNone VNone))
         ∧ dom mapping
           = {[ [] ]} ∪ set_map (λ name, ["properties"; name]) (dom properties)).
Proof.
  intros Hschema root result.
  assert (Py.truthy (VDict schema) = true) as Htruthy.
  { simpl. by apply bool_decide_eq_true. }
  assert (∀ names, keys (Py.get_default schema "properties" (VDict ∅)) = Ok names →
            result = Ok (<[[] := root]> (foldl (seed_field key_properties) ∅ names)))
    as Hrun.
  { intros names Hkeys. subst result root. unfold get_standard_metadata.
    rewrite Htruthy, Hkeys. unfold seed_root.
    destruct schema_name as [name|]; simpl; [|done].
    by destruct (bool_decide (name ≠ "")). }
  repeat split; try reflexivity.
  - intros Hnone. apply (Hrun []). unfold Py.get_default. rewrite Hnone.
    simpl. by rewrite map_to_list_empty.
  - intros properties Hprops.
    eexists. split.
    { apply Hrun. unfold Py.get_default. rewrite Hprops. reflexivity. }
    assert (∀ name, is_Some (properties !! name) ↔
                    name ∈ (map_to_list properties).*1) as Hnames.
    { intros name. rewrite list_elem_of_fmap. split.
      - intros [v Hv]. exists (name, v). split; [done|].
        by apply elem_of_map_to_list.
      - intros [[n v] [-> Hin]]. apply elem_of_map_to_list in Hin. eauto. }
    split; [apply lookup_insert_eq|]. split; [|split].
    + intros name Hname Hkp. rewrite lookup_insert_ne by done.
      rewrite seed_fold_field by (by apply Hnames).
      by rewrite (proj2 (is_key_property_spec _ _) Hkp).
    + intros name Hname Hkp. rewrite lookup_insert_ne by done.
      rewrite seed_fold_field by (by apply Hnames).
      destruct (is_key_property key_properties name) eqn:Hk; [|done].
      by apply is_key_property_spec in Hk.
    + rewrite dom_insert_L, seed_fold_dom, dom_empty_L.
      apply set_eq. intros b.
      rewrite !elem_of_union, elem_of_map, elem_of_list_to_set,
        list_elem_of_fmap.
      setoid_rewrite elem_of_dom. setoid_rewrite Hnames.
      rewrite elem_of_empty, elem_of_singleton. naive_solver.
Qed.

Lemma standard_metadata_seed_witness :
  ∃ mapping,
    get_standard_metadata (Some Sample.schema) None (Some ["id"]) None None
    = Ok mapping
    ∧ mapping !! []
      = Some (StreamMetadata (VInclusion AVAILABLE) VNone VNone
                (VList [VStr "id"]) VNone VNone VNone)
    ∧ mapping !! ["properties"; "id"]
      = Some (Metadata (VInclusion AUTOMATIC) VNone VNone)
    ∧ mapping !! ["properties"; "name"]
      = Some (Metadata (VInclusion AVAILABLE) VNone VNone).
Proof.
  destruct (standard_metadata_seed Sample.schema None (Some ["id"]) None None)
    as (_ & _ & _ & _ & _ & Hprops).
  { apply (lookup_Some_nonempty _ "properties" (VDict Sample.schema_properties)).
    vm_compute; reflexivity. }
  destruct (Hprops Sample.schema_properties) as (mapping & Hrun & Hroot & Hkey & Hother & _).
  { vm_compute; reflexivity. }
  exists mapping. split; [exact Hrun|]. split; [exact Hroot|]. split.
  - apply Hkey.
    + exists (VDict ∅). vm_compute; reflexivity.
    + exists ["id"]. split; [reflexivity|]. by left.
  - apply Hother.
    + exists (VDict ∅). vm_compute; reflexivity.
    + intros (kp & [= <-] & Hin).
      apply elem_of_cons in Hin as [[=]|Hin]. by apply elem_of_nil in Hin.
Defined.

(** A [properties] entry that is not a dict has no [keys] to call. *)
Lemma standard_metadata_properties_not_dict :
  get_standard_metadata (Some {[ "properties" := VNone ]}) None None None None
  = Raise AttributeError.
Proof. vm_compute; reflexivity. Qed.

(** ** [CatalogEntry.from_dict] *)

Section catalog_entry.

Context {SchemaPlus : Type}.
Variable SchemaPlus_from_dict : Value → Result SchemaPlus.

Lemma from_dict_identity_present (stream : gmap string Value) id :
  stream !! "tap_stream_id" = Some id →
  CatalogEntry.from_dict SchemaPlus_from_dict stream =
    schema ← SchemaPlus_from_dict (Py.get_default stream "schema" (VDict ∅));
    metadata ← from_iterable (Py.get_default stream "metadata" (VList []));
    Ok (CatalogEntry.mk id metadata schema (Py.get stream "stream")
          (Py.get stream "key_properties") (Py.get stream "replication_key")
          (Py.get stream "is_view") (Py.get stream "database_name")
          (Py.get stream "table_name") VNone (Py.get stream "stream_alias")
          (Py.get stream "replication_method")).
Proof. intros Hid. unfold CatalogEntry.from_dict. simpl. by rewrite Hid. Qed.


End catalog_entry.



(** * Further properties *)

(** ** Ancestors of a breadcrumb *)

Lemma ancestor_length k (b : Breadcrumb) :
  length (ancestor k b) = length b - 2 * k.
Proof.
  induction k as [|k IH]; simpl; [lia|].
  rewrite drop_last_two_length. fold (ancestor k b). lia.
Qed.

Lemma ancestor_succ k (b : Breadcrumb) :
  ancestor (S k) b = Py.drop_last_two (ancestor k b).
Proof. reflexivity. Qed.

Lemma ancestor_parent k (b : Breadcrumb) :
  ancestor k (Py.drop_last_two b) = ancestor (S k) b.
Proof. unfold ancestor. by rewrite Nat.iter_succ_r. Qed.

(** One step of the parent rule, for any state. *)
Lemma breadcrumb_is_selected_below_false σ b :
  b ≠ [] →
  (_breadcrumb_is_selected (Py.drop_last_two b) σ).1 = VBool false →
  (_breadcrumb_is_selected b σ).1 = VBool false.
Proof.
  intros Hb Hparent.
  destruct (decide (self σ = ∅)) as [He|Hne].
  - by rewrite breadcrumb_is_selected_empty in Hparent.
  - rewrite breadcrumb_is_selected_child by done.
    by rewrite Hparent.
Qed.

(** X1.  Deselection reaches every depth: when the breadcrumb [k] parent
    steps above [b] resolves to [False], so does [b], whatever the records in
    between say. *)
Theorem deselected_ancestor σ b k :
  (∀ j, j < k → ancestor j b ≠ []) →
  (_breadcrumb_is_selected (ancestor k b) σ).1 = VBool false →
  (_breadcrumb_is_selected b σ).1 = VBool false.
Proof.
  induction k as [|k IH]; intros Hpath Hup; [done|].
  apply IH; [intros j Hj; apply Hpath; lia|].
  apply breadcrumb_is_selected_below_false; [apply Hpath; lia|].
  by rewrite <-ancestor_succ.
Qed.

Lemma deselected_ancestor_witness :
  (_breadcrumb_is_selected
     ["properties"; "name"; "properties"; "first"; "properties"; "initial"]
     (mkState Sample.deselected_stream [])).1 = VBool false.
Proof.
  apply (deselected_ancestor _ _ 3).
  - intros j Hj.
    destruct j as [|[|[|j]]]; [discriminate..|lia].
  - vm_compute; reflexivity.
Defined.

(** X2.  A deselected stream deselects everything: when the empty breadcrumb
    resolves to [False], every breadcrumb does. *)
Theorem deselected_stream_deselects_all σ :
  (_breadcrumb_is_selected [] σ).1 = VBool false →
  ∀ b, (_breadcrumb_is_selected b σ).1 = VBool false.
Proof.
  intros Hroot b.
  remember (length b) as n eqn:Hn. revert b Hn.
  induction n as [n IH] using lt_wf_ind. intros b ->.
  destruct (decide (b = [])) as [->|Hb]; [done|].
  apply breadcrumb_is_selected_below_false; [done|].
  apply (IH (length (Py.drop_last_two b))); [|done].
  rewrite drop_last_two_length. destruct b; [done|simpl; lia].
Qed.

Lemma deselected_stream_deselects_all_witness :
  (_breadcrumb_is_selected ["properties"; "id"]
     (mkState Sample.deselected_stream [])).1 = VBool false.
Proof.
  apply deselected_stream_deselects_all. vm_compute; reflexivity.
Defined.

(** ** Flags in, flags out *)

Lemma select_entry_bool b md pv σ :
  flag (Metadata.selected md) →
  flag (Metadata.selected_by_default md) →
  flag pv →
  ∃ r, (select_entry b md pv σ).1 = VBool r.
Proof.
  intros Hs Hd Hpv. unfold select_entry.
  destruct (Py.is_False pv) eqn:Hf.
  { apply is_False_spec in Hf as ->. by exists false. }
  destruct (Py.eq_inclusion _ UNSUPPORTED).
  { exists false. by destruct (Py.is_True _). }
  destruct (Py.eq_inclusion _ AUTOMATIC).
  { exists true. by destruct (Py.is_False (Metadata.selected md)). }
  destruct Hs as [Hs|[r Hs]]; rewrite Hs; simpl; [|by exists r].
  destruct Hd as [Hd|[r Hd]]; rewrite Hd; simpl; [|by exists r].
  destruct Hpv as [->|[[] ->]]; simpl; eauto.
Qed.

Lemma entry_of_typed σ b :
  typed_flags (self σ) →
  flag (Metadata.selected (entry_of σ b))
  ∧ flag (Metadata.selected_by_default (entry_of σ b)).
Proof.
  intros Htyped. unfold entry_of.
  destruct (self σ !! b) as [md|] eqn:Hmd; simpl.
  - by apply (Htyped b).
  - split; by left.
Qed.

Lemma breadcrumb_is_selected_bool σ :
  typed_flags (self σ) →
  ∀ b, ∃ r, (_breadcrumb_is_selected b σ).1 = VBool r.
Proof.
  intros Htyped b.
  remember (length b) as n eqn:Hn. revert b Hn.
  induction n as [n IH] using lt_wf_ind. intros b ->.
  destruct (decide (self σ = ∅)) as [He|Hne].
  { exists true. by rewrite breadcrumb_is_selected_empty. }
  destruct (entry_of_typed σ b Htyped) as [Hs Hd].
  destruct (decide (b = [])) as [->|Hb].
  - rewrite breadcrumb_is_selected_root by done.
    apply select_entry_bool; [done..|by left].
  - rewrite breadcrumb_is_selected_child by done.
    apply select_entry_bool; [done..|]. right.
    apply (IH (length (Py.drop_last_two b))); [|done].
    rewrite drop_last_two_length. destruct b; [done|simpl; lia].
Qed.

(** ** The mask and direct resolution *)

Lemma mask_getitem_absent (mask : gmap Breadcrumb Value) b :
  mask !! b = None → 2 ≤ length b →
  SelectionMask.__getitem__ mask b
  = SelectionMask.__getitem__ mask (Py.drop_last_two b).
Proof.
  intros Hb Hlen. unfold SelectionMask.__getitem__ at 1. rewrite Hb.
  rewrite SelectionMask.__missing___equation_1.
  destruct (decide (2 ≤ length b)); [|lia]. reflexivity.
Qed.

Lemma mask_getitem_short (mask : gmap Breadcrumb Value) b :
  mask !! b = None → length b < 2 →
  SelectionMask.__getitem__ mask b = VBool true.
Proof.
  intros Hb Hlen. unfold SelectionMask.__getitem__. rewrite Hb.
  rewrite SelectionMask.__missing___equation_1.
  destruct (decide (2 ≤ length b)); [lia|]. reflexivity.
Qed.

(** X3.  Flags in, [bool] out.  When every record keeps a [bool] or [None]
    in [selected] and in [selected_by_default], [_breadcrumb_is_selected]
    returns a [bool] for every breadcrumb, and so does a lookup in the mask
    of [resolve_selection], for keys of the mapping and for any other
    breadcrumb. *)
Theorem resolution_returns_bool σ :
  typed_flags (self σ) →
  ∀ b, (∃ r, (_breadcrumb_is_selected b σ).1 = VBool r)
       ∧ (∃ r, SelectionMask.__getitem__ (resolve_selection σ).1 b = VBool r).
Proof.
  intros Htyped b. split; [by apply breadcrumb_is_selected_bool|].
  remember (length b) as n eqn:Hn. revert b Hn.
  induction n as [n IH] using lt_wf_ind. intros b ->.
  destruct ((resolve_selection σ).1 !! b) as [v|] eqn:Hv.
  - unfold SelectionMask.__getitem__. rewrite Hv.
    rewrite resolve_selection_lookup in Hv. case_decide; [|done].
    injection Hv as <-. by apply breadcrumb_is_selected_bool.
  - destruct (decide (2 ≤ length b)) as [Hlen|Hlen].
    + rewrite mask_getitem_absent by done.
      apply (IH (length (Py.drop_last_two b))); [|done].
      rewrite drop_last_two_length. lia.
    + exists true. apply mask_getitem_short; [done|lia].
Qed.

Lemma sample_selected_stream_typed : typed_flags Sample.selected_stream.
Proof.
  intros b md Hmd.
  assert (md ∈ (map_to_list Sample.selected_stream).*2) as Hin.
  { apply list_elem_of_fmap. exists (b, md). split; [done|].
    by apply elem_of_map_to_list. }
  vm_compute in Hin.
  repeat (apply elem_of_cons in Hin as [->|Hin]);
    [..|by apply elem_of_nil in Hin];
    split; (by left) || (right; eauto).
Qed.

Lemma resolution_returns_bool_witness :
  ∃ r, SelectionMask.__getitem__
         (resolve_selection (mkState Sample.selected_stream [])).1
         ["properties"; "name"; "properties"; "last"] = VBool r.
Proof.
  apply resolution_returns_bool. exact sample_selected_stream_typed.
Defined.

(** Without a record of its own, a breadcrumb resolves to what its parent
    resolves to, when that is a [bool]. *)
Lemma breadcrumb_is_selected_inherits σ b r :
  self σ ≠ ∅ → b ≠ [] → self σ !! b = None →
  (_breadcrumb_is_selected (Py.drop_last_two b) σ).1 = VBool r →
  (_breadcrumb_is_selected b σ).1 = VBool r.
Proof.
  intros Hne Hb Habsent Hparent.
  rewrite breadcrumb_is_selected_child by done.
  unfold entry_of. rewrite Habsent, Hparent. by destruct r.
Qed.

(** X4.  The mask agrees with direct resolution.  For a mapping with flags in
    its records and an entry for the stream, looking a breadcrumb of even
    length up in the mask of [resolve_selection] gives what
    [_breadcrumb_is_selected] returns for it, whether or not the breadcrumb
    is a key of the mapping. *)
Theorem mask_agrees_with_resolution σ :
  typed_flags (self σ) →
  is_Some (self σ !! []) →
  ∀ b, Nat.Even (length b) →
    SelectionMask.__getitem__ (resolve_selection σ).1 b
    = (_breadcrumb_is_selected b σ).1.
Proof.
  intros Htyped [root Hroot] b.
  assert (self σ ≠ ∅) as Hne by eauto using lookup_Some_nonempty.
  remember (length b) as n eqn:Hn. revert b Hn.
  induction n as [n IH] using lt_wf_ind. intros b -> Heven.
  destruct (self σ !! b) as [md|] eqn:Hmd.
  - unfold SelectionMask.__getitem__. rewrite resolve_selection_lookup.
    rewrite decide_True; [done|]. apply elem_of_dom. eauto.
  - assert (b ≠ []) as Hb by (intros ->; congruence).
    assert (2 ≤ length b) as Hlen.
    { destruct b as [|? [|? ?]]; [done| |simpl; lia].
      destruct Heven as [k Hk]. simpl in Hk. lia. }
    rewrite mask_getitem_absent; [|by rewrite resolve_selection_lookup,
      decide_False by (rewrite elem_of_dom, Hmd; by intros [? ?])|done].
    assert (length (Py.drop_last_two b) < length b) as Hshorter
      by (rewrite drop_last_two_length; lia).
    rewrite (IH _ Hshorter _ eq_refl).
    + destruct (breadcrumb_is_selected_bool σ Htyped (Py.drop_last_two b))
        as [r Hr].
      rewrite Hr. symmetry. by apply breadcrumb_is_selected_inherits.
    + rewrite drop_last_two_length. destruct Heven as [k Hk].
      exists (k - 1). lia.
Qed.

Lemma mask_agrees_with_resolution_witness :
  SelectionMask.__getitem__
    (resolve_selection (mkState Sample.selected_stream [])).1
    ["properties"; "hint"; "properties"; "inner"]
  = (_breadcrumb_is_selected ["properties"; "hint"; "properties"; "inner"]
       (mkState Sample.selected_stream [])).1.
Proof.
  apply mask_agrees_with_resolution.
  - exact sample_selected_stream_typed.
  - exists Sample.selected_root. vm_compute; reflexivity.
  - exists 2. reflexivity.
Defined.

(** X5.  A missing breadcrumb takes the mask's value of its nearest ancestor
    that is a key: when [b] has at least [2 * k] segments, the [k]
    breadcrumbs from [b] upwards are missing and the next one up, [b] without
    its last [2 * k] segments, holds [v], the lookup of [b] gives [v].  (With
    fewer segments the walk stops early and answers [True].) *)
Theorem mask_nearest_ancestor (mask : gmap Breadcrumb Value) b k v :
  2 * k ≤ length b →
  (∀ j, j < k → mask !! ancestor j b = None) →
  mask !! ancestor k b = Some v →
  SelectionMask.__getitem__ mask b = v.
Proof.
  revert b. induction k as [|k IH]; intros b Hlen Hmissing Hfound.
  - unfold SelectionMask.__getitem__. simpl in Hfound. by rewrite Hfound.
  - rewrite mask_getitem_absent; [|apply (Hmissing 0); lia|lia].
    apply IH.
    + rewrite drop_last_two_length. lia.
    + intros j Hj. rewrite ancestor_parent. apply Hmissing. lia.
    + by rewrite ancestor_parent.
Qed.

Lemma mask_nearest_ancestor_witness :
  SelectionMask.__getitem__
    {[ ["properties"; "address"] := VBool false ]}
    ["properties"; "address"; "properties"; "geo"; "properties"; "lat"]
  = VBool false.
Proof.
  apply (mask_nearest_ancestor _ _ 2).
  - simpl; lia.
  - intros j Hj. destruct j as [|[|j]]; [vm_compute; reflexivity..|lia].
  - vm_compute; reflexivity.
Defined.

(** X6.  A missing breadcrumb with no ancestor among the keys is selected.
    The walk stops at the first breadcrumb of fewer than two segments without
    looking further, so a missing breadcrumb of odd length never sees the
    entry of the stream. *)
Theorem mask_default_true (mask : gmap Breadcrumb Value) b :
  (∀ j, 2 * j ≤ length b → mask !! ancestor j b = None) →
  SelectionMask.__getitem__ mask b = VBool true.
Proof.
  remember (length b) as n eqn:Hn. revert b Hn.
  induction n as [n IH] using lt_wf_ind. intros b -> Hmissing.
  assert (mask !! b = None) as Hb by (apply (Hmissing 0); lia).
  destruct (decide (2 ≤ length b)) as [Hlen|Hlen].
  - rewrite mask_getitem_absent by done.
    apply (IH (length (Py.drop_last_two b))); [|done|].
    + rewrite drop_last_two_length. lia.
    + intros j Hj. rewrite drop_last_two_length in Hj.
      rewrite ancestor_parent. apply Hmissing. lia.
  - apply mask_getitem_short; [done|lia].
Qed.

Lemma mask_default_true_witness :
  SelectionMask.__getitem__ {[ [] := VBool false ]}
    ["properties"; "address"; "city"] = VBool true.
Proof.
  apply mask_default_true. intros j Hj. simpl in Hj.
  destruct j as [|[|j]]; [vm_compute; reflexivity..|lia].
Defined.

(** ** Resolving again *)

Lemma resolve_selection_value σ σ' :
  self σ' = self σ → (resolve_selection σ').1 = (resolve_selection σ).1.
Proof.
  intros Hself. apply map_eq. intros b.
  rewrite !resolve_selection_lookup, Hself.
  case_decide; [|done]. f_equal. by apply breadcrumb_is_selected_value.
Qed.

(** X7.  Resolution can be repeated: a second [resolve_selection], run after
    the first on the same mapping object, returns the same mask, although the
    first call has written to the logger in between. *)
Theorem resolve_selection_repeatable σ :
  (resolve_selection (resolve_selection σ).2).1 = (resolve_selection σ).1.
Proof.
  apply resolve_selection_value.
  rewrite resolve_selection_run. simpl. apply selected_pairs_spec.
Qed.

(** ** What [to_dict] writes and [from_dict] reads *)

(** X8.  [to_dict] writes exactly the fields that are set, under their
    hyphenated names: the dict holds [v] at [k] if and only if [v] is not
    [None] and [k] is the wire name of a field whose value is [v].  No key
    maps to [None] and no underscore survives in a key. *)
Theorem to_dict_entries md k v :
  Metadata.to_dict md !! k = Some v
  ↔ v ≠ VNone
    ∧ ∃ name, (name, v) ∈ Metadata.field_values md
              ∧ k = Metadata.wire_name name.
Proof.
  split.
  - intros Hk. apply to_dict_fold_lookup in Hk as [Hk|Hk]; [|done].
    by rewrite lookup_empty in Hk.
  - intros (Hv & name & Hin & ->).
    rewrite get_to_dict_lookup, (to_dict_get md name v Hin).
    destruct v; done.
Qed.

Lemma fields_of_from_dict cls value :
  (Metadata.field_values (Metadata.from_dict cls value)).*1
  = Metadata.fields cls.
Proof. by destruct cls. Qed.

Lemma from_dict_field cls value name :
  name ∈ Metadata.fields cls →
  (name, Py.get value (Metadata.wire_name name))
  ∈ Metadata.field_values (Metadata.from_dict cls value).
Proof.
  destruct cls; rewrite ?from_dict_Metadata, ?from_dict_StreamMetadata; simpl;
    rewrite !elem_of_cons, !elem_of_nil; intros Hin;
    repeat (destruct Hin as [->|Hin]; [tauto|]); done.
Qed.

(** X9.  [from_dict] reads the hyphenated names of the fields of its class
    and nothing else: a key that is not one of them, an underscore spelling
    included, has no effect on the record. *)
Theorem from_dict_ignores_other_keys cls (value : gmap string Value) k v :
  k ∉ Metadata.wire_name <$> Metadata.fields cls →
  Metadata.from_dict cls (<[k := v]> value) = Metadata.from_dict cls value.
Proof.
  intros Hk.
  assert (∀ name, name ∈ Metadata.fields cls →
            Py.get (<[k := v]> value) (Metadata.wire_name name)
            = Py.get value (Metadata.wire_name name)) as Hget.
  { intros name Hname. unfold Py.get. rewrite lookup_insert_ne; [done|].
    intros ->. apply Hk. apply list_elem_of_fmap. eauto. }
  destruct cls; rewrite ?from_dict_Metadata, ?from_dict_StreamMetadata;
    f_equal; apply Hget; simpl; rewrite !elem_of_cons; tauto.
Qed.

Lemma from_dict_ignores_other_keys_witness :
  Metadata.from_dict MetadataCls
    (<["selected_by_default" := VBool true]> {[ "selected" := VBool false ]})
  = Metadata.from_dict MetadataCls {[ "selected" := VBool false ]}.
Proof.
  apply from_dict_ignores_other_keys.
  apply (bool_decide_unpack _). vm_compute. exact I.
Defined.

(** X10.  A dict parsed and written again is normalised: of the keys of the
    document, those that are wire names of the class and hold something other
    than [None] come back with their value; unknown keys and explicit [None]
    do not come back. *)
Theorem to_dict_from_dict cls (value : gmap string Value) k :
  Metadata.to_dict (Metadata.from_dict cls value) !! k =
    if decide (k ∈ Metadata.wire_name <$> Metadata.fields cls)
    then match value !! k with
         | Some v => if Py.is_None v then None else Some v
         | None => None
         end
    else None.
Proof.
  case_decide as Hk.
  - apply list_elem_of_fmap in Hk as (name & -> & Hname).
    rewrite get_to_dict_lookup.
    rewrite (to_dict_get _ name _ (from_dict_field cls value name Hname)).
    unfold Py.get. by destruct (value !! Metadata.wire_name name).
  - unfold Metadata.to_dict. rewrite to_dict_fold_other, lookup_empty; [done|].
    by rewrite fields_of_from_dict.
Qed.

(** ** Parsing a metadata list *)

Lemma for_each_app {A S} (body : S → A → Result S) l1 l2 s :
  for_each body (l1 ++ l2) s
  = (s' ← for_each body l1 s; for_each body l2 s').
Proof.
  revert s. induction l1 as [|x l1 IH]; intros s; simpl; [done|].
  destruct (body s x); simpl; [apply IH|done].
Qed.

Lemma for_each_invariant {A S} (P : S → Prop) (body : S → A → Result S) l :
  (∀ s x s', P s → body s x = Ok s' → P s') →
  ∀ s s', P s → for_each body l s = Ok s' → P s'.
Proof.
  intros Hbody. induction l as [|x l IH]; intros s s' Hs Hrun; simpl in Hrun.
  - by injection Hrun as <-.
  - destruct (body s x) as [s1|] eqn:Hx; simpl in Hrun; [|done].
    eapply IH; [|done]. eauto.
Qed.

Lemma from_iterable_body_entry mapping (d value : gmap string Value) k :
  d !! "breadcrumb" = Some (VList (VStr <$> k)) →
  d !! "metadata" = Some (VDict value) →
  from_iterable_body mapping (VDict d)
  = Ok (<[k := Metadata.from_dict (class_at k) value]> mapping).
Proof.
  intros Hb Hm. unfold from_iterable_body, Py.getitem. rewrite Hb, Hm. simpl.
  rewrite as_key_strs. simpl. do 2 f_equal. unfold class_at. by destruct k.
Qed.

(** X11.  Entries of the list are stored in order, so an entry replaces any
    earlier entry with the same breadcrumb: parsing a list with one more
    well-formed entry at its end gives the mapping of the list with the record
    of that entry stored at its breadcrumb, a [StreamMetadata] for the empty
    breadcrumb and a plain [Metadata] otherwise.  Other keys of the entry are
    ignored. *)
Theorem from_iterable_last_entry_wins l m (d value : gmap string Value) k :
  from_iterable (VList l) = Ok m →
  d !! "breadcrumb" = Some (VList (VStr <$> k)) →
  d !! "metadata" = Some (VDict value) →
  from_iterable (VList (l ++ [VDict d]))
  = Ok (<[k := Metadata.from_dict (class_at k) value]> m).
Proof.
  unfold from_iterable. simpl. intros Hl Hb Hm.
  rewrite for_each_app, Hl. simpl.
  by rewrite (from_iterable_body_entry _ _ value k).
Qed.

Lemma from_iterable_last_entry_wins_witness :
  from_iterable
    (VList ([MetadataMapping.to_list_item
               ([], StreamMetadata VNone (VBool true) VNone VNone VNone VNone
                      VNone)]
            ++ [VDict (Py.dict_of_pairs
                         [("breadcrumb", VList (VStr <$> []));
                          ("metadata", VDict {[ "selected" := VBool false ]});
                          ("note", VStr "edited")])]))
  = Ok (<[[] := Metadata.from_dict (class_at [])
                  {[ "selected" := VBool false ]}]>
          {[ [] := StreamMetadata VNone (VBool true) VNone VNone VNone VNone
                     VNone ]}).
Proof.
  apply from_iterable_last_entry_wins; vm_compute; reflexivity.
Defined.

(** X12.  Parsing stops at the first entry it cannot read: after entries
    that parse, an entry without [breadcrumb] raises the [KeyError] for it,
    and one with a breadcrumb but without [metadata] raises the [KeyError]
    for that, whatever follows in the list. *)
Theorem from_iterable_fails_fast l m (d : gmap string Value) rest :
  from_iterable (VList l) = Ok m →
  (d !! "breadcrumb" = None →
   from_iterable (VList (l ++ VDict d :: rest)) = Raise (KeyError "breadcrumb"))
  ∧ (∀ raw items,
       d !! "breadcrumb" = Some raw → Py.iter raw = Ok items →
       d !! "metadata" = None →
       from_iterable (VList (l ++ VDict d :: rest))
       = Raise (KeyError "metadata")).
Proof.
  unfold from_iterable. simpl. intros Hl. split.
  - intros Hb. rewrite for_each_app, Hl. simpl.
    unfold from_iterable_body, Py.getitem. by rewrite Hb.
  - intros raw items Hb Hiter Hm. rewrite for_each_app, Hl. simpl.
    unfold from_iterable_body, Py.getitem. rewrite Hb. simpl.
    rewrite Hiter. simpl. by rewrite Hm.
Qed.

Lemma from_iterable_fails_fast_witness :
  from_iterable
    (VList ([] ++ VDict {[ "metadata" := VDict ∅ ]}
               :: [VDict {[ "breadcrumb" := VList [] ]}]))
  = Raise (KeyError "breadcrumb").
Proof.
  apply (from_iterable_fails_fast [] ∅); vm_compute; reflexivity.
Defined.

Lemma as_key_nil items key :
  as_key items = Ok key → (key = [] ↔ items = []).
Proof.
  destruct items as [|x items]; simpl.
  - by intros [= <-].
  - destruct (segment x); simpl; [|done].
    destruct (as_key items); simpl; [|done].
    intros [= <-]. split; discriminate.
Qed.

Lemma class_of_from_dict cls value :
  Metadata.class_of (Metadata.from_dict cls value) = cls.
Proof. by destruct cls. Qed.

Lemma well_shaped_insert M b md :
  well_shaped M → Metadata.class_of md = class_at b →
  well_shaped (<[b := md]> M).
Proof.
  intros HM Hmd b' md' Hlook.
  destruct (decide (b = b')) as [<-|Hne].
  - rewrite lookup_insert_eq in Hlook. by injection Hlook as <-.
  - rewrite lookup_insert_ne in Hlook by done. by apply HM.
Qed.

Lemma from_iterable_body_shape mapping d mapping' :
  well_shaped mapping →
  from_iterable_body mapping d = Ok mapping' →
  well_shaped mapping'.
Proof.
  intros Hshape. unfold from_iterable_body.
  destruct (Py.getitem d "breadcrumb") as [raw|]; simpl; [|done].
  destruct (Py.iter raw) as [breadcrumb|]; simpl; [|done].
  destruct (Py.getitem d "metadata") as [metadata|]; simpl; [|done].
  destruct (Py.get_method metadata) as [value|]; simpl; [|done].
  destruct (as_key breadcrumb) as [key|] eqn:Hkey; simpl; [|done].
  intros [= <-]. apply well_shaped_insert; [done|].
  apply as_key_nil in Hkey. unfold class_at.
  destruct (decide (breadcrumb = [])) as [Hnil|Hcons].
  - rewrite bool_decide_eq_false_2 by (by intros ?).
    rewrite bool_decide_eq_false_2 by (intros Hk; apply Hk; by apply Hkey).
    apply class_of_from_dict.
  - rewrite bool_decide_eq_true_2 by done.
    rewrite bool_decide_eq_true_2 by (intros Hk; by apply Hcons, Hkey).
    apply class_of_from_dict.
Qed.

(** X13.  Whatever it is given, a mapping that [from_iterable] returns has a
    [StreamMetadata] at the empty breadcrumb, if it has an entry there, and a
    plain [Metadata] at every other key. *)
Theorem from_iterable_well_shaped iterable m :
  from_iterable iterable = Ok m → well_shaped m.
Proof.
  unfold from_iterable.
  destruct (Py.iter iterable) as [items|]; simpl; [|done].
  apply (for_each_invariant well_shaped).
  - intros s x s' Hs Hx. by apply (from_iterable_body_shape s x).
  - intros b md Hlook. by rewrite lookup_empty in Hlook.
Qed.

Lemma from_iterable_well_shaped_witness :
  well_shaped {[ [] := StreamMetadata VNone (VBool true) VNone VNone VNone VNone VNone ]}.
Proof.
  apply (from_iterable_well_shaped
           (VList (to_list {[ [] := Metadata VNone (VBool true) VNone ]}))).
  vm_compute; reflexivity.
Defined.

(** ** What resolution reads *)

Lemma select_entry_fields b md md' pv σ σ' :
  Metadata.inclusion md = Metadata.inclusion md' →
  Metadata.selected md = Metadata.selected md' →
  Metadata.selected_by_default md = Metadata.selected_by_default md' →
  (select_entry b md pv σ).1 = (select_entry b md' pv σ').1.
Proof.
  intros Hi Hs Hd. unfold select_entry. rewrite Hi, Hs, Hd.
  repeat (match goal with |- context [if ?c then _ else _] => destruct c end);
    reflexivity.
Qed.

(** Resolution sees a mapping through whether it is empty and through the
    three common fields of the record it finds, or makes up, at each
    breadcrumb. *)
Lemma breadcrumb_is_selected_ext σ σ' :
  (self σ = ∅ ↔ self σ' = ∅) →
  (∀ b, Metadata.inclusion (entry_of σ b) = Metadata.inclusion (entry_of σ' b)
        ∧ Metadata.selected (entry_of σ b) = Metadata.selected (entry_of σ' b)
        ∧ Metadata.selected_by_default (entry_of σ b)
          = Metadata.selected_by_default (entry_of σ' b)) →
  ∀ b, (_breadcrumb_is_selected b σ).1 = (_breadcrumb_is_selected b σ').1.
Proof.
  intros Hempty Hfields b.
  remember (length b) as n eqn:Hn. revert b Hn.
  induction n as [n IH] using lt_wf_ind. intros b ->.
  destruct (decide (self σ = ∅)) as [He|Hne].
  { rewrite !breadcrumb_is_selected_empty; [done|by apply Hempty|done]. }
  assert (self σ' ≠ ∅) as Hne' by (intros He'; by apply Hne, Hempty).
  destruct (Hfields b) as (Hi & Hs & Hd).
  destruct (decide (b = [])) as [->|Hb].
  - rewrite !breadcrumb_is_selected_root by done.
    by apply select_entry_fields.
  - rewrite (breadcrumb_is_selected_child b σ),
      (breadcrumb_is_selected_child b σ') by done.
    rewrite (IH (length (Py.drop_last_two b))
               ltac:(rewrite drop_last_two_length; destruct b; [done|simpl; lia])
               _ eq_refl).
    by apply select_entry_fields.
Qed.

(** X14.  Serialization keeps every resolved selection.  For any mapping,
    also one with records of the wrong class, the mapping parsed from
    [to_list] resolves each breadcrumb to what the original resolves it to. *)
Theorem round_trip_keeps_resolution (M : gmap Breadcrumb AnyMetadata) :
  ∃ M', from_iterable (VList (to_list M)) = Ok M'
    ∧ ∀ b log log',
        (_breadcrumb_is_selected b (mkState M' log')).1
        = (_breadcrumb_is_selected b (mkState M log)).1.
Proof.
  eexists. split; [apply from_iterable_to_list|].
  intros b log log'. apply breadcrumb_is_selected_ext; simpl.
  - rewrite !map_empty. setoid_rewrite reread_lookup.
    setoid_rewrite fmap_None. done.
  - intros b'. unfold entry_of. simpl. rewrite reread_lookup.
    destruct (M !! b') as [md|]; simpl; [|done].
    apply reread_common.
Qed.

(** ** Lookups that store a record *)

Lemma getitem_state σ b :
  self (__getitem__ b σ).2
  = match self σ !! b with
    | Some _ => self σ
    | None =>
        <[b := if decide (b = [])
               then StreamMetadata VNone VNone VNone VNone VNone VNone VNone
               else Metadata VNone VNone VNone]> (self σ)
    end.
Proof.
  unfold __getitem__, __missing__. st_unfold.
  destruct (self σ !! b) eqn:Hb; st_unfold; [done|].
  destruct (decide (b = [])) as [->|Hne].
  - by rewrite bool_decide_eq_false_2 by (by intros ?).
  - by rewrite bool_decide_eq_true_2.
Qed.

(** X15.  On a mapping that is not empty, looking a breadcrumb up with
    [self[b]] may store a default record but changes no resolved selection:
    every breadcrumb resolves after the lookup to what it resolved to
    before. *)
Theorem lookup_keeps_resolution σ b0 :
  self σ ≠ ∅ →
  ∀ b, (_breadcrumb_is_selected b (__getitem__ b0 σ).2).1
       = (_breadcrumb_is_selected b σ).1.
Proof.
  intros Hne b. apply breadcrumb_is_selected_ext.
  - rewrite getitem_state. destruct (self σ !! b0); [done|].
    split; [intros He; by apply insert_non_empty in He|done].
  - intros b'. unfold entry_of. rewrite getitem_state.
    destruct (self σ !! b0) eqn:Hb0; [done|].
    destruct (decide (b0 = b')) as [<-|Hother].
    + rewrite lookup_insert_eq, Hb0. simpl. by case_decide.
    + by rewrite lookup_insert_ne.
Qed.

Lemma lookup_keeps_resolution_witness :
  (_breadcrumb_is_selected ["properties"; "zip"]
     (__getitem__ ["properties"; "zip"]
        (mkState Sample.selected_stream [])).2).1
  = (_breadcrumb_is_selected ["properties"; "zip"]
       (mkState Sample.selected_stream [])).1.
Proof.
  apply lookup_keeps_resolution.
  apply (lookup_Some_nonempty _ [] Sample.selected_root).
  vm_compute; reflexivity.
Defined.

Lemma breadcrumb_is_selected_all_false σ n :
  (_breadcrumb_is_selected [] σ).1 = VBool false →
  ∀ b, length b ≤ n → (_breadcrumb_is_selected b σ).1 = VBool false.
Proof.
  intros Hroot. induction n as [|n IH]; intros b Hlen.
  - by destruct b; [|simpl in Hlen; lia].
  - destruct (decide (b = [])) as [->|Hb]; [done|].
    apply breadcrumb_is_selected_below_false; [done|].
    apply IH. rewrite drop_last_two_length. lia.
Qed.

(** X16.  On an empty mapping the same lookup changes everything: before it
    every breadcrumb resolves to [True]; reading the [root] property stores
    a default record for the stream, the mapping is no longer empty, and
    every breadcrumb resolves to [False]. *)
Theorem root_access_deselects_empty_mapping σ :
  self σ = ∅ →
  ∀ b, (_breadcrumb_is_selected b σ).1 = VBool true
       ∧ (_breadcrumb_is_selected b (root σ).2).1 = VBool false.
Proof.
  intros He b. split; [by rewrite breadcrumb_is_selected_empty|].
  apply (breadcrumb_is_selected_all_false _ (length b)); [|done].
  assert (self (root σ).2
          = {[ [] := StreamMetadata VNone VNone VNone VNone VNone VNone VNone ]})
    as Hself.
  { unfold root. rewrite getitem_state, He, lookup_empty.
    by rewrite decide_True. }
  rewrite breadcrumb_is_selected_root
    by (rewrite Hself; apply insert_non_empty).
  unfold entry_of. rewrite Hself, lookup_singleton_eq. reflexivity.
Qed.

Lemma root_access_deselects_empty_mapping_witness :
  (_breadcrumb_is_selected ["properties"; "id"] (mkState ∅ [])).1 = VBool true
  ∧ (_breadcrumb_is_selected ["properties"; "id"]
       (root (mkState ∅ [])).2).1 = VBool false.
Proof. by apply root_access_deselects_empty_mapping. Defined.

(** ** The seed mapping *)

(** Every mapping [get_standard_metadata] returns is a root record without
    [selected] and [selected_by_default], with no inclusion or [available],
    stored over the entries of the schema's fields. *)
Lemma get_standard_metadata_inv schema schema_name key_properties
    valid_replication_keys replication_method m :
  get_standard_metadata schema schema_name key_properties
    valid_replication_keys replication_method = Ok m →
  ∃ inc sname names,
    (inc = VNone ∨ inc = VInclusion AVAILABLE)
    ∧ m = <[[] := StreamMetadata inc VNone VNone (opt_strs key_properties)
                    (opt_str replication_method)
                    (opt_strs valid_replication_keys) sname]>
            (foldl (seed_field key_properties) ∅ names).
Proof.
  unfold get_standard_metadata.
  destruct schema as [schema|]; [destruct (Py.truthy (VDict schema))|].
  - destruct (keys _) as [names|]; simpl; [|done].
    intros [= <-].
    destruct (Py.truthy (opt_str schema_name)); simpl;
      eexists _, _, names; (split; [by right|reflexivity]).
  - simpl. intros [= <-]. eexists _, _, []. split; [by left|reflexivity].
  - simpl. intros [= <-]. eexists _, _, []. split; [by left|reflexivity].
Qed.

Lemma seed_fold_well_shaped key_properties names acc :
  well_shaped acc → well_shaped (foldl (seed_field key_properties) acc names).
Proof.
  revert acc. induction names as [|n names IH]; intros acc Hacc; [done|].
  simpl. apply IH. unfold seed_field. apply well_shaped_insert; [done|].
  by destruct (is_key_property key_properties n).
Qed.

Lemma well_shaped_empty : well_shaped ∅.
Proof. intros b md Hlook. by rewrite lookup_empty in Hlook. Qed.

(** X17.  The seed mapping survives serialization unchanged: a mapping that
    [get_standard_metadata] returns has a [StreamMetadata] at the root and
    plain [Metadata] elsewhere, and parsing its list form gives the same
    mapping back. *)
Theorem standard_metadata_round_trip schema schema_name key_properties
    valid_replication_keys replication_method m :
  get_standard_metadata schema schema_name key_properties
    valid_replication_keys replication_method = Ok m →
  well_shaped m ∧ from_iterable (VList (to_list m)) = Ok m.
Proof.
  intros Hrun.
  assert (well_shaped m) as Hshape.
  { apply get_standard_metadata_inv in Hrun as (inc & sname & names & _ & ->).
    apply well_shaped_insert; [|done].
    apply seed_fold_well_shaped, well_shaped_empty. }
  split; [done|].
  rewrite from_iterable_to_list. f_equal. apply map_eq. intros b.
  rewrite reread_lookup. destruct (m !! b) as [md|] eqn:Hmd; [|done].
  simpl. f_equal. apply reread_same_class. by apply Hshape.
Qed.

Lemma standard_metadata_round_trip_witness :
  let m : gmap Breadcrumb AnyMetadata :=
    {[ [] := StreamMetadata (VInclusion AVAILABLE) VNone VNone
               (VList [VStr "id"]) (VStr "FULL_TABLE") VNone (VStr "users") ]} in
  well_shaped m ∧ from_iterable (VList (to_list m)) = Ok m.
Proof.
  apply (standard_metadata_round_trip (Some {[ "type" := VStr "object" ]})
           (Some "users") (Some ["id"]) None (Some "FULL_TABLE")).
  vm_compute; reflexivity.
Defined.

(** X18.  Nothing is selected in a seed mapping: in a mapping that
    [get_standard_metadata] returns, with or without a schema, every
    breadcrumb resolves to [False], the key properties with inclusion
    [automatic] included, because the root record carries no [selected]. *)
Theorem standard_metadata_selects_nothing schema schema_name key_properties
    valid_replication_keys replication_method m :
  get_standard_metadata schema schema_name key_properties
    valid_replication_keys replication_method = Ok m →
  ∀ b log, (_breadcrumb_is_selected b (mkState m log)).1 = VBool false.
Proof.
  intros Hrun b log.
  apply get_standard_metadata_inv in Hrun as (inc & sname & names & Hinc & ->).
  apply (breadcrumb_is_selected_all_false _ (length b)); [|done].
  rewrite breadcrumb_is_selected_root by apply insert_non_empty.
  unfold entry_of. simpl. rewrite lookup_insert_eq. simpl.
  by destruct Hinc as [-> | ->].
Qed.

Lemma get_standard_metadata_listed (schema properties : gmap string Value)
    schema_name key_properties valid_replication_keys replication_method :
  schema !! "properties" = Some (VDict properties) →
  get_standard_metadata (Some schema) schema_name key_properties
    valid_replication_keys replication_method
  = Ok (<[[] := seed_root schema_name key_properties valid_replication_keys
                  replication_method]>
          (foldl (seed_field key_properties) ∅ (map_to_list properties).*1)).
Proof.
  intros Hprops. unfold get_standard_metadata.
  assert (Py.truthy (VDict schema) = true) as ->.
  { simpl. apply bool_decide_eq_true. eauto using lookup_Some_nonempty. }
  unfold Py.get_default. rewrite Hprops. simpl. unfold seed_root.
  destruct schema_name as [name|]; simpl; [|done].
  by destruct (bool_decide (name ≠ "")).
Qed.

Lemma standard_metadata_selects_nothing_witness :
  (_breadcrumb_is_selected ["properties"; "id"]
     (mkState
        (<[[] := seed_root None (Some ["id"]) None None]>
           (foldl (seed_field (Some ["id"])) ∅
              (map_to_list Sample.schema_properties).*1))
        [])).1
  = VBool false.
Proof.
  apply (standard_metadata_selects_nothing (Some Sample.schema) None
           (Some ["id"]) None None).
  apply get_standard_metadata_listed. vm_compute; reflexivity.
Defined.

(** ** Catalog entries and catalogs *)

Section catalogs.

Context {SchemaPlus : Type}.
Variable SchemaPlus_from_dict : Value → Result SchemaPlus.

(** X19.  A stream document whose [metadata] is the list form of a mapping
    with a [StreamMetadata] at the root and plain [Metadata] elsewhere parses
    to an entry that holds that very mapping. *)
Theorem catalog_entry_keeps_metadata (stream : gmap string Value) id schema M :
  stream !! "tap_stream_id" = Some id →
  SchemaPlus_from_dict (Py.get_default stream "schema" (VDict ∅)) = Ok schema →
  stream !! "metadata" = Some (VList (to_list M)) →
  well_shaped M →
  ∃ entry,
    CatalogEntry.from_dict SchemaPlus_from_dict stream = Ok entry
    ∧ CatalogEntry.tap_stream_id entry = id
    ∧ CatalogEntry.metadata entry = M.
Proof.
  intros Hid Hschema Hmd Hshape.
  rewrite (from_dict_identity_present _ _ id Hid), Hschema. simpl.
  unfold Py.get_default at 1. rewrite Hmd. simpl.
  rewrite from_iterable_to_list. simpl.
  eexists. split; [reflexivity|]. split; [done|]. simpl.
  apply map_eq. intros b. rewrite reread_lookup.
  destruct (M !! b) as [md|] eqn:Hb; [|done].
  simpl. f_equal. apply reread_same_class. by apply Hshape.
Qed.

(** X20.  Errors come in the order the fields are read: with the identity
    present, a schema the schema parser rejects raises the parser's error
    whatever the metadata list holds, and a metadata list that does not parse
    raises its own error once the schema has parsed. *)
Theorem catalog_entry_error_order (stream : gmap string Value) id e :
  stream !! "tap_stream_id" = Some id →
  (SchemaPlus_from_dict (Py.get_default stream "schema" (VDict ∅)) = Raise e →
   CatalogEntry.from_dict SchemaPlus_from_dict stream = Raise e)
  ∧ (∀ schema,
       SchemaPlus_from_dict (Py.get_default stream "schema" (VDict ∅))
       = Ok schema →
       from_iterable (Py.get_default stream "metadata" (VList [])) = Raise e →
       CatalogEntry.from_dict SchemaPlus_from_dict stream = Raise e).
Proof.
  intros Hid. rewrite (from_dict_identity_present _ _ id Hid). split.
  - by intros ->.
  - intros schema -> Hmd. simpl. by rewrite Hmd.
Qed.

Lemma catalog_body_inv c stream c' :
  Catalog.from_dict_body SchemaPlus_from_dict c stream = Ok c' →
  ∃ d entry k,
    stream = VDict d
    ∧ CatalogEntry.from_dict SchemaPlus_from_dict d = Ok entry
    ∧ Catalog.hash (CatalogEntry.tap_stream_id entry) = Ok k
    ∧ c' = <[k := entry]> c.
Proof.
  unfold Catalog.from_dict_body.
  destruct stream as [| | | | | |d]; simpl; try done.
  destruct (CatalogEntry.from_dict SchemaPlus_from_dict d) as [entry|] eqn:Hd;
    simpl; [|done].
  destruct (Catalog.hash _) as [k|] eqn:Hk; simpl; [|done].
  intros [= <-]. by exists d, entry, k.
Qed.

(** X21.  Every entry of a catalog that [Catalog.from_dict] returns was
    parsed from one of the stream documents and is filed under the key of
    its own [tap_stream_id]; the catalog has at most as many entries as the
    document has streams. *)
Theorem catalog_from_dict_filed (data : gmap string Value) c :
  Catalog.from_dict SchemaPlus_from_dict data = Ok c →
  ∃ streams,
    Py.iter (Py.get_default data "streams" (VList [])) = Ok streams
    ∧ size c ≤ length streams
    ∧ ∀ k entry, c !! k = Some entry →
        Catalog.hash (CatalogEntry.tap_stream_id entry) = Ok k
        ∧ ∃ d, VDict d ∈ streams
               ∧ CatalogEntry.from_dict SchemaPlus_from_dict d = Ok entry.
Proof.
  unfold Catalog.from_dict.
  destruct (Py.iter _) as [streams|]; simpl; [|done].
  intros Hrun. exists streams. split; [done|].
  assert (∀ l c0 c1,
    for_each (Catalog.from_dict_body SchemaPlus_from_dict) l c0 = Ok c1 →
    size c1 ≤ size c0 + length l
    ∧ ∀ k entry, c1 !! k = Some entry →
        c0 !! k = Some entry
        ∨ (Catalog.hash (CatalogEntry.tap_stream_id entry) = Ok k
           ∧ ∃ d, VDict d ∈ l
                  ∧ CatalogEntry.from_dict SchemaPlus_from_dict d = Ok entry))
    as Hloop.
  { induction l as [|x l IH]; intros c0 c1 Hl; simpl in Hl.
    - injection Hl as <-. split; [simpl; lia|]. by left.
    - destruct (Catalog.from_dict_body _ c0 x) as [c0'|] eqn:Hx;
        simpl in Hl; [|done].
      apply catalog_body_inv in Hx as (d & e & k0 & -> & Hparse & Hk0 & ->).
      destruct (IH _ _ Hl) as [Hsize Hin]. split.
      + pose proof (map_size_insert k0 e c0) as Hins.
        destruct (c0 !! k0); simpl in *; lia.
      + intros k entry Hlook.
        destruct (Hin k entry Hlook) as [Hold|(Hk & d' & Hd' & He)].
        * destruct (decide (k0 = k)) as [<-|Hne].
          -- rewrite lookup_insert_eq in Hold. injection Hold as <-.
             right. split; [done|]. exists d. split; [by left|done].
          -- rewrite lookup_insert_ne in Hold by done. by left.
        * right. split; [done|]. exists d'. split; [by right|done]. }
  destruct (Hloop _ _ _ Hrun) as [Hsize Hin]. split.
  - by rewrite map_size_empty in Hsize.
  - intros k entry Hlook.
    destruct (Hin k entry Hlook) as [Hold|Hnew]; [|done].
    by rewrite lookup_empty in Hold.
Qed.


(** X23.  A catalog stops at the first stream it cannot parse: after streams
    that parse, a stream document without [tap_stream_id] raises the
    [KeyError] for it, and a stream that is not a dict raises [TypeError],
    whatever follows. *)
Theorem catalog_fails_fast (data : gmap string Value) l c rest :
  Catalog.from_dict SchemaPlus_from_dict (<["streams" := VList l]> data) = Ok c →
  (∀ d : gmap string Value, d !! "tap_stream_id" = None →
     Catalog.from_dict SchemaPlus_from_dict
       (<["streams" := VList (l ++ VDict d :: rest)]> data)
     = Raise (KeyError "tap_stream_id"))
  ∧ (∀ x, (∀ d, x ≠ VDict d) →
       Catalog.from_dict SchemaPlus_from_dict
         (<["streams" := VList (l ++ x :: rest)]> data)
       = Raise TypeError).
Proof.
  unfold Catalog.from_dict, Py.get_default. rewrite !lookup_insert_eq. simpl.
  intros Hl. split.
  - intros d Hd. rewrite lookup_insert_eq. simpl.
    rewrite for_each_app, Hl. simpl.
    unfold Catalog.from_dict_body, CatalogEntry.from_dict. simpl.
    by rewrite Hd.
  - intros x Hx. rewrite lookup_insert_eq. simpl.
    rewrite for_each_app, Hl. simpl.
    unfold Catalog.from_dict_body.
    destruct x as [| | | | | |d]; try done. by destruct (Hx d).
Qed.

(** X24.  [add_stream] files an entry under its identity and [get_stream]
    finds it there; a lookup under any other key is not affected.  An
    identity that cannot be hashed makes both raise [TypeError]. *)
Theorem catalog_add_then_get
    (c : gmap Catalog.Key (CatalogEntry.t SchemaPlus)) entry :
  (∀ k, Catalog.hash (CatalogEntry.tap_stream_id entry) = Ok k →
     ∃ c', Catalog.add_stream c entry = Ok c'
       ∧ Catalog.get_stream c' (CatalogEntry.tap_stream_id entry)
         = Ok (Some entry)
       ∧ ∀ id k', Catalog.hash id = Ok k' → k' ≠ k →
           Catalog.get_stream c' id = Catalog.get_stream c id)
  ∧ (Catalog.hash (CatalogEntry.tap_stream_id entry) = Raise TypeError →
     Catalog.add_stream c entry = Raise TypeError
     ∧ Catalog.get_stream c (CatalogEntry.tap_stream_id entry)
       = Raise TypeError).
Proof.
  unfold Catalog.add_stream, Catalog.get_stream. split.
  - intros k Hk. rewrite Hk. simpl. eexists. split; [reflexivity|].
    split; [by rewrite lookup_insert_eq|].
    intros id k' Hk' Hne. rewrite Hk'. simpl. by rewrite lookup_insert_ne.
  - intros Hk. by rewrite Hk.
Qed.

End catalogs.

Lemma catalog_entry_keeps_metadata_witness :
  let M : gmap Breadcrumb AnyMetadata :=
    {[ [] := StreamMetadata VNone (VBool true) VNone VNone VNone VNone VNone ]} in
  ∃ entry,
    CatalogEntry.from_dict Sample.SchemaPlus_from_dict
      (Py.dict_of_pairs
         [("tap_stream_id", VStr "users"); ("metadata", VList (to_list M))])
    = Ok entry
    ∧ CatalogEntry.tap_stream_id entry = VStr "users"
    ∧ CatalogEntry.metadata entry = M.
Proof.
  intros M.
  apply (catalog_entry_keeps_metadata Sample.SchemaPlus_from_dict _ _ ∅).
  - vm_compute; reflexivity.
  - vm_compute; reflexivity.
  - vm_compute; reflexivity.
  - intros b md [<- <-]%lookup_singleton_Some. reflexivity.
Defined.

Lemma catalog_entry_error_order_witness :
  CatalogEntry.from_dict Sample.SchemaPlus_from_dict
    (Py.dict_of_pairs
       [("tap_stream_id", VStr "users"); ("schema", VInt 5);
        ("metadata", VInt 7)])
  = Raise AttributeError.
Proof.
  apply (catalog_entry_error_order Sample.SchemaPlus_from_dict _ (VStr "users"));
    vm_compute; reflexivity.
Defined.

Lemma catalog_from_dict_filed_witness :
  ∃ streams,
    Py.iter (Py.get_default
               {[ "streams" := VList [VDict Sample.numbered_stream] ]}
               "streams" (VList [])) = Ok streams
    ∧ size ({[ Catalog.KInt 5 :=
                 CatalogEntry.mk (VInt 5) ∅ (∅ : gmap string Value) VNone
                   VNone VNone VNone VNone VNone VNone VNone VNone ]}
            : gmap Catalog.Key _) ≤ length streams
    ∧ ∀ k entry,
        ({[ Catalog.KInt 5 :=
              CatalogEntry.mk (VInt 5) ∅ (∅ : gmap string Value) VNone VNone
                VNone VNone VNone VNone VNone VNone VNone ]}
         : gmap Catalog.Key _) !! k = Some entry →
        Catalog.hash (CatalogEntry.tap_stream_id entry) = Ok k
        ∧ ∃ d, VDict d ∈ streams
               ∧ CatalogEntry.from_dict Sample.SchemaPlus_from_dict d = Ok entry.
Proof.
  apply (catalog_from_dict_filed Sample.SchemaPlus_from_dict).
  vm_compute; reflexivity.
Defined.


Lemma catalog_fails_fast_witness :
  Catalog.from_dict Sample.SchemaPlus_from_dict
    (<["streams" :=
         VList ([] ++ VDict {[ "stream" := VStr "users" ]}
                   :: [VDict Sample.numbered_stream])]> ∅)
  = Raise (KeyError "tap_stream_id").
Proof.
  apply (catalog_fails_fast Sample.SchemaPlus_from_dict ∅ [] ∅).
  - vm_compute; reflexivity.
  - vm_compute; reflexivity.
Defined.

(** ** What resolution tells the logger *)

Lemma breadcrumb_is_selected_run σ b :
  self σ ≠ ∅ →
  _breadcrumb_is_selected b σ =
    let before :=
      if decide (b = []) then (VNone, σ)
      else _breadcrumb_is_selected (Py.drop_last_two b) σ in
    select_entry b (entry_of σ b) before.1 before.2.
Proof.
  intros Hne. destruct (decide (b = [])) as [->|Hb].
  - by apply breadcrumb_is_selected_root.
  - by apply breadcrumb_is_selected_child.
Qed.

(** X25.  An override that loses is reported once and by name.  For a record
    whose parent, if any, does not resolve to [False]: with inclusion
    [unsupported] and [selected] being [True], or with inclusion [automatic]
    and [selected] being [False], the call adds one record to the log after
    whatever resolving the parent logged, and its argument is the breadcrumb
    joined with colons; with one of these inclusions and no such conflict it
    adds nothing. *)
Theorem lost_override_is_logged σ b md :
  self σ !! b = Some md →
  (b ≠ [] →
   (_breadcrumb_is_selected (Py.drop_last_two b) σ).1 ≠ VBool false) →
  let before :=
    if decide (b = []) then σ
    else (_breadcrumb_is_selected (Py.drop_last_two b) σ).2 in
  let after := (_breadcrumb_is_selected b σ).2 in
  (Py.eq_inclusion (Metadata.inclusion md) UNSUPPORTED = true →
   logged after =
     if Py.is_True (Metadata.selected md)
     then logged before
          ++ [mkLog ("Property '%s' was selected but is not supported. "
                     +:+ "Ignoring selected==True input.")
                [LStr (Py.join ":" b)]]
     else logged before)
  ∧ (Py.eq_inclusion (Metadata.inclusion md) AUTOMATIC = true →
     logged after =
       if Py.is_False (Metadata.selected md)
       then logged before
            ++ [mkLog ("Property '%s' was deselected while also set "
                       +:+ "for automatic inclusion. "
                       +:+ "Ignoring selected==False input.")
                  [LStr (Py.join ":" b)]]
       else logged before).
Proof.
  intros Hmd Hparent before after.
  assert (self σ ≠ ∅) as Hne by eauto using lookup_Some_nonempty.
  assert (entry_of σ b = md) as Hentry by (unfold entry_of; by rewrite Hmd).
  assert (∃ pv, Py.is_False pv = false
                ∧ after = (select_entry b md pv before).2) as (pv & Hpv & ->).
  { subst after before. rewrite breadcrumb_is_selected_run, Hentry by done.
    destruct (decide (b = [])) as [->|Hb]; simpl.
    - by exists VNone.
    - eexists. split; [|reflexivity]. apply is_False_false. auto. }
  unfold select_entry. rewrite Hpv. split; intros Hinc.
  - rewrite Hinc. destruct (Py.is_True _); reflexivity.
  - rewrite (eq_inclusion_exclusive _ AUTOMATIC UNSUPPORTED), Hinc by done.
    destruct (Py.is_False (Metadata.selected md)); reflexivity.
Qed.

Lemma lost_override_is_logged_witness :
  let σ := mkState Sample.selected_stream [] in
  let b := ["properties"; "secret"] in
  let md := Metadata (VStr "unsupported") (VBool true) VNone in
  let before := (_breadcrumb_is_selected (Py.drop_last_two b) σ).2 in
  logged (_breadcrumb_is_selected b σ).2
  = logged before
    ++ [mkLog ("Property '%s' was selected but is not supported. "
               +:+ "Ignoring selected==True input.")
          [LStr (Py.join ":" b)]].
Proof.
  intros σ b md before.
  apply (lost_override_is_logged σ b md).
  - vm_compute; reflexivity.
  - intros _. vm_compute. discriminate.
  - vm_compute; reflexivity.
Defined.
